(** * Wan 2.6 video generation: the submit / poll / download job

    A shallow embedding of
    [image.pollinations.ai/src/models/wanVideoModel.ts].

    The job talks to the process environment and the network ([fetch]), to
    the progress bar, to the timer ([sleep]) and to two helpers of the
    repository ([calculateVideoResolution], [downloadImageAsBase64]).  Every
    call that leaves the module is recorded, in order, in a trace of events;
    the answers of the network are read from a [Network] value, so that a
    theorem quantified over [Network] speaks about every behaviour of the
    provider.  An exception is an outcome of its own: nothing in the module
    catches one, so a thrown exception ends the job.  The debug logging
    ([logOps], [logError], [logRequestSafely]) has no effect on the job and
    is left out. *)

From Stdlib Require Import ZArith List String Ascii Bool Lia Sorted.
From Stdlib Require Import DecimalString.
Import ListNotations.

Open Scope string_scope.
Open Scope Z_scope.

(** ** JavaScript values used by the module *)

Module Js.

(** [`${n}`] for an integer [n]. *)
Definition show (n : Z) : string := NilZero.string_of_int (Z.to_int n).

(** Truthiness of a [string | undefined]: [undefined] and [""] are falsy. *)
Definition truthy (s : option string) : bool :=
  match s with
  | Some EmptyString => false
  | Some _ => true
  | None => false
  end.

(** [a || b] where both sides are [string | undefined]. *)
Definition or_else (a b : option string) : option string :=
  if truthy a then a else b.

(** [a || d] where the right-hand side is a string literal. *)
Definition or_default (a : option string) (d : string) : string :=
  match a with
  | Some s => if truthy a then s else d
  | None => d
  end.

(** [n || d] on numbers: [undefined] and [0] are falsy. *)
Definition num_or (n : option Z) (d : Z) : Z :=
  match n with
  | Some v => if v =? 0 then d else v
  | None => d
  end.

(** [s.startsWith(p)]. *)
Definition startsWith (s p : string) : bool := String.prefix p s.

Definition upper_ascii (c : ascii) : ascii :=
  let n := nat_of_ascii c in
  if (97 <=? n)%nat && (n <=? 122)%nat then ascii_of_nat (n - 32) else c.

(** [s.toUpperCase()] on ASCII strings, where it maps the letters a-z and
    nothing else.  Characters outside ASCII are left as they are, whereas
    JavaScript maps some of them (U+017F to S, U+0131 to I): a statement
    that depends on the upper case of a string that need not be ASCII says
    so in a hypothesis. *)
Fixpoint toUpperCase (s : string) : string :=
  match s with
  | EmptyString => EmptyString
  | String c r => String (upper_ascii c) (toUpperCase r)
  end.

(** [s.includes(p)]. *)
Fixpoint includes (s p : string) : bool :=
  String.prefix p s ||
  match s with
  | EmptyString => false
  | String _ r => includes r p
  end.

(** [a === "LITERAL"] for a [string | undefined]. *)
Definition equals (a : option string) (lit : string) : bool :=
  match a with
  | Some s => String.eqb s lit
  | None => false
  end.

End Js.

(** ** Constants *)

Definition DASHSCOPE_API_BASE : string :=
  "https://dashscope-intl.aliyuncs.com/api/v1".
Definition WAN_T2V_MODEL : string := "wan2.6-t2v".
Definition WAN_I2V_MODEL : string := "wan2.6-i2v-flash".

Definition MIN_DURATION_SECONDS : Z := 2.
Definition MAX_DURATION_SECONDS : Z := 15.
Definition DEFAULT_DURATION_SECONDS : Z := 5.
Definition DEFAULT_RESOLUTION : string := "720P".

Definition POLL_MAX_ATTEMPTS : Z := 60.
Definition POLL_DELAY_MS : Z := 5000.

(** ** Data *)

Definition Buffer : Type := list Byte.byte.

(** [HttpError] of [../httpError.ts]: a message and an HTTP status. *)
Record HttpError : Type := mkHttpError {
  err_message : string;
  err_status : Z
}.

(** What a call can throw: an [HttpError] of this module, the rejection of
    [fetch] on a network failure, the rejection of [response.json()] on a
    body that is not JSON, or whatever [downloadImageAsBase64] throws. *)
Inductive Exn : Type :=
| Http (e : HttpError)
| FetchRejected (reason : string)
| JsonRejected
| ImageDownloadFailed (reason : string).

(** [ImageParams["image"]]: absent, one string, or an ordered list. *)
Inductive ImageField : Type :=
| NoImage
| OneImage (url : string)
| ManyImages (urls : list string).

(** The fields of [ImageParams] the module reads.  Durations and sizes are
    whole numbers. *)
Record ImageParams : Type := mkImageParams {
  duration : option Z;
  width : option Z;
  height : option Z;
  aspectRatio : option string;
  audio : option bool;
  image : ImageField
}.

(** The argument and the result of [calculateVideoResolution]. *)
Record ResolutionQuery : Type := mkResolutionQuery {
  rq_width : option Z;
  rq_height : option Z;
  rq_aspectRatio : option string;
  rq_defaultResolution : string
}.

Record ResolutionChoice : Type := mkResolutionChoice {
  rc_aspectRatio : string;
  rc_resolution : string
}.

(** The return value of [prepareVideoParameters]. *)
Record VideoParams : Type := mkVideoParams {
  vp_durationSeconds : Z;
  vp_resolution : string;
  vp_aspectRatio : string;
  vp_generateAudio : bool
}.

Record Usage : Type := mkUsage {
  completionVideoSeconds : Z;
  completionAudioSeconds : Z
}.

Record VideoGenerationResult : Type := mkVideoGenerationResult {
  buffer : Buffer;
  mimeType : string;
  durationSeconds : Z;
  actualModel : string;
  usage : Usage
}.

Record DashScopeRequest : Type := mkDashScopeRequest {
  model : string;
  input_prompt : string;
  input_img_url : option string;
  param_resolution : string;
  param_duration : Z;
  param_prompt_extend : bool;
  param_audio : bool
}.

(** [WanTaskResponse], the body of the answer to the submission, by the
    three values the module reads: [data.output?.task_id], [data.code] and
    [data.message]. *)
Record WanTaskResponse : Type := mkWanTaskResponse {
  created_task_id : option string;
  created_code : option string;
  created_message : option string
}.

(** [WanTaskResult], the body of the answer to a poll, by the values the
    module reads: of [data.output], the status, the video URL and the
    message; [data.usage?.video_duration]; the top-level [data.message]. *)
Record WanTaskOutput : Type := mkWanTaskOutput {
  task_status : option string;
  video_url : option string;
  out_message : option string
}.

Record WanTaskResult : Type := mkWanTaskResult {
  output : option WanTaskOutput;
  video_duration : option Z;
  top_message : option string
}.

(** The value returned by [pollTaskOnce]: its [status] field with the
    optional fields each status comes with. *)
Inductive PollResult : Type :=
| Pending
| Completed (videoUrl : string) (videoDuration : Z)
| Failed (error : string).

(** ** The network *)

(** A [Response]: its status, [await response.text()], and the decoded body
    ([await response.json()], [None] when the body is not JSON, or
    [await response.arrayBuffer()]). *)
Record Response (B : Type) : Type := mkResponse {
  resp_status : Z;
  resp_text : string;
  resp_body : B
}.
Arguments mkResponse {B} _ _ _.
Arguments resp_status {B} _.
Arguments resp_text {B} _.
Arguments resp_body {B} _.

(** [response.ok]: the status is in 200..299. *)
Definition ok {B} (r : Response B) : bool :=
  (200 <=? resp_status r) && (resp_status r <=? 299).

(** [await fetch(..)]: a rejection (network failure) or a response. *)
Inductive Fetched (B : Type) : Type :=
| Rejects (reason : string)
| Responds (r : Response B).
Arguments Rejects {B} _.
Arguments Responds {B} _.

(** The environment of one job: the API key of [process.env] and the answer
    of the network to each request the job can make. *)
Record Network : Type := mkNetwork {
  DASHSCOPE_API_KEY : option string;
  submit_answer : DashScopeRequest -> Fetched (option WanTaskResponse);
  poll_answer : string -> Z -> Fetched (option WanTaskResult);
  video_answer : string -> Fetched Buffer
}.

(** ** Effects: a trace of calls and an exception *)

Inductive Event : Type :=
| UpdateBar (requestId : string) (percent : Z) (phase msg : string)
| ImageDownload (url : string)
| SubmitPost (url : string) (body : DashScopeRequest)
| PollGet (url : string)
| VideoGet (url : string)
| Sleep (ms : Z).

Inductive Outcome (A : Type) : Type :=
| Returned (a : A)
| Thrown (e : Exn).
Arguments Returned {A} _.
Arguments Thrown {A} _.

(** A computation: the events it performed, in order, and how it ended. *)
Definition M (A : Type) : Type := (list Event * Outcome A)%type.

Definition ret {A} (a : A) : M A := ([], Returned a).
Definition throw {A} (e : Exn) : M A := ([], Thrown e).
Definition emit (ev : Event) : M unit := ([ev], Returned tt).

Definition bind {A B} (m : M A) (k : A -> M B) : M B :=
  match m with
  | (t, Returned a) => let (t', r) := k a in ((t ++ t')%list, r)
  | (t, Thrown e) => (t, Thrown e)
  end.

Notation "x <- m ;; k" := (bind m (fun x => k))
  (at level 61, m at next level, right associativity).
Notation "m ;; k" := (bind m (fun _ => k))
  (at level 61, right associativity).

Definition trace {A} (m : M A) : list Event := fst m.
Definition outcome {A} (m : M A) : Outcome A := snd m.

(** [await fetch(..)] seen from the caller: the call is recorded, and a
    rejection is thrown. *)
Definition awaitFetch {B} (call : Event) (answer : Fetched B) : M (Response B) :=
  emit call ;;
  match answer with
  | Rejects reason => throw (FetchRejected reason)
  | Responds r => ret r
  end.

(** [await response.json()]. *)
Definition awaitJson {J} (r : Response (option J)) : M J :=
  match resp_body r with
  | Some data => ret data
  | None => throw JsonRejected
  end.

(** ** The module *)

Section Wan.

(** Two helpers of the repository that the module imports:
    [calculateVideoResolution] of [../utils/videoResolution.ts], a pure
    function, and [downloadImageAsBase64] of [../utils/imageDownload.ts],
    which retrieves an image and returns its base64 text and its MIME type,
    or throws. *)
Variable calculateVideoResolution : ResolutionQuery -> ResolutionChoice.
Variable downloadImageAsBase64 : string -> Outcome (string * string).

(** The polling progress: [50 + Math.min(40, Math.floor(attempt * 0.7))].
    For the attempts of the loop, [1..60], the double [attempt * 0.7] has
    the same integer part as the exact [7 * attempt / 10]. *)
Definition progressPercent (attempt : Z) : Z :=
  50 + Z.min 40 (7 * attempt / 10).

Definition prepareVideoParameters (safeParams : ImageParams) : VideoParams :=
  let rawDuration := Js.num_or (duration safeParams) DEFAULT_DURATION_SECONDS in
  let durationSeconds :=
    Z.max MIN_DURATION_SECONDS (Z.min MAX_DURATION_SECONDS rawDuration) in
  let choice :=
    calculateVideoResolution
      {| rq_width := width safeParams;
         rq_height := height safeParams;
         rq_aspectRatio := aspectRatio safeParams;
         rq_defaultResolution := DEFAULT_RESOLUTION |} in
  {| vp_durationSeconds := durationSeconds;
     vp_resolution := rc_resolution choice;
     vp_aspectRatio := rc_aspectRatio choice;
     vp_generateAudio :=
       match audio safeParams with
       | Some false => false
       | _ => true
       end |}.

(** [if (!image) return undefined; return Array.isArray(image) ? image[0] : image].
    An array is truthy even when empty, and [image[0]] of an empty array is
    [undefined]. *)
Definition extractFirstImage (img : ImageField) : option string :=
  match img with
  | NoImage => None
  | OneImage s => if Js.truthy (Some s) then Some s else None
  | ManyImages l => hd_error l
  end.

Definition createVideoResult (buf : Buffer) (videoParams : VideoParams)
    (actualDuration : option Z) : VideoGenerationResult :=
  let duration := Js.num_or actualDuration (vp_durationSeconds videoParams) in
  {| buffer := buf;
     mimeType := "video/mp4";
     durationSeconds := vp_durationSeconds videoParams;
     actualModel := "wan";
     usage :=
       {| completionVideoSeconds := duration;
          completionAudioSeconds :=
            if vp_generateAudio videoParams then duration else 0 |} |}.

Definition downloadVideo (net : Network) (videoUrl requestId : string)
    : M Buffer :=
  emit (UpdateBar requestId 90 "Processing" "Downloading video...") ;;
  response <- awaitFetch (VideoGet videoUrl) (video_answer net videoUrl) ;;
  if negb (ok response) then
    throw (Http (mkHttpError
      ("Failed to download video: " ++ Js.show (resp_status response)) 500))
  else
    let buf := resp_body response in
    emit (UpdateBar requestId 95 "Success" "Video generation completed") ;;
    ret buf.

Definition prepareImageUrl (imageUrl : string) : M string :=
  if Js.startsWith imageUrl "http://"
     || Js.startsWith imageUrl "https://"
     || Js.startsWith imageUrl "data:"
  then ret imageUrl
  else throw (Http (mkHttpError
         "Invalid image URL: must be http/https or data URI" 400)).

Definition buildDashScopeRequest (prompt : string) (imageUrl : option string)
    (videoParams : VideoParams) : M DashScopeRequest :=
  img_url <-
    match imageUrl with
    | Some u =>
        if Js.truthy imageUrl
        then (checked <- prepareImageUrl u ;; ret (Some checked))
        else ret None
    | None => ret None
    end ;;
  ret {| model := if Js.truthy imageUrl then WAN_I2V_MODEL else WAN_T2V_MODEL;
         input_prompt := prompt;
         input_img_url := img_url;
         param_resolution := vp_resolution videoParams;
         param_duration := vp_durationSeconds videoParams;
         param_prompt_extend := true;
         param_audio := vp_generateAudio videoParams |}.

Definition createDashScopeTask (net : Network) (apiKey : string)
    (requestBody : DashScopeRequest) (requestId : string) : M string :=
  emit (UpdateBar requestId 45 "Processing" "Initiating video generation...") ;;
  response <-
    awaitFetch
      (SubmitPost
         (DASHSCOPE_API_BASE ++ "/services/aigc/video-generation/video-synthesis")
         requestBody)
      (submit_answer net requestBody) ;;
  if negb (ok response) then
    throw (Http (mkHttpError
      ("DashScope API request failed: " ++ resp_text response)
      (resp_status response)))
  else
    data <- awaitJson response ;;
    if Js.truthy (created_code data) then
      throw (Http (mkHttpError
        ("DashScope API error: "
           ++ Js.or_default (created_message data)
                (Js.or_default (created_code data) ""))
        400))
    else
      match created_task_id data with
      | Some taskId =>
          if Js.truthy (Some taskId) then
            emit (UpdateBar requestId 50 "Processing"
                    "Generating video (this takes 1-5 minutes)...") ;;
            ret taskId
          else
            throw (Http (mkHttpError "DashScope API did not return task ID" 500))
      | None =>
          throw (Http (mkHttpError "DashScope API did not return task ID" 500))
      end.

Definition pollTaskOnce (net : Network) (pollUrl apiKey : string)
    (attempt : Z) (requestId : string) : M PollResult :=
  emit (UpdateBar requestId (progressPercent attempt) "Processing"
          ("Generating video... (" ++ Js.show attempt ++ "/"
             ++ Js.show POLL_MAX_ATTEMPTS ++ ")")) ;;
  response <- awaitFetch (PollGet pollUrl) (poll_answer net pollUrl attempt) ;;
  if negb (ok response) then
    let errorText := resp_text response in
    if (400 <=? resp_status response) && (resp_status response <? 500) then
      ret (Failed ("DashScope poll failed (" ++ Js.show (resp_status response)
                     ++ "): " ++ errorText))
    else
      ret Pending
  else
    data <- awaitJson response ;;
    let taskStatus :=
      match output data with
      | Some o => option_map Js.toUpperCase (task_status o)
      | None => None
      end in
    if Js.equals taskStatus "SUCCEEDED" then
      match output data with
      | Some o =>
          match video_url o with
          | Some url =>
              if Js.truthy (Some url) then
                ret (Completed url (Js.num_or (video_duration data) 0))
              else
                throw (Http (mkHttpError "No video URL in completed response" 500))
          | None =>
              throw (Http (mkHttpError "No video URL in completed response" 500))
          end
      | None =>
          throw (Http (mkHttpError "No video URL in completed response" 500))
      end
    else if Js.equals taskStatus "FAILED" then
      ret (Failed
             (Js.or_default
                (Js.or_else
                   (match output data with
                    | Some o => out_message o
                    | None => None
                    end)
                   (top_message data))
                "Video generation failed"))
    else if Js.equals taskStatus "CANCELED" then
      ret (Failed "Video generation was canceled")
    else
      ret Pending.

(** The loop [for (attempt = 1; attempt <= POLL_MAX_ATTEMPTS; attempt++)],
    entered at [attempt] with [remaining = POLL_MAX_ATTEMPTS + 1 - attempt]
    iterations left; when none is left the statement after the loop runs. *)
Fixpoint pollLoop (net : Network) (pollUrl apiKey requestId : string)
    (remaining : nat) (attempt : Z) : M (Buffer * Z) :=
  match remaining with
  | O =>
      throw (Http (mkHttpError "Video generation timed out after 5 minutes" 504))
  | S remaining' =>
      pollResult <- pollTaskOnce net pollUrl apiKey attempt requestId ;;
      match pollResult with
      | Completed videoUrl videoDuration =>
          buf <- downloadVideo net videoUrl requestId ;;
          ret (buf, videoDuration)
      | Failed error =>
          throw (Http (mkHttpError error 500))
      | Pending =>
          emit (Sleep POLL_DELAY_MS) ;;
          pollLoop net pollUrl apiKey requestId remaining' (attempt + 1)
      end
  end.

Definition pollWanTask (net : Network) (taskId apiKey requestId : string)
    : M (Buffer * Z) :=
  let pollUrl := DASHSCOPE_API_BASE ++ "/tasks/" ++ taskId in
  pollLoop net pollUrl apiKey requestId (Z.to_nat POLL_MAX_ATTEMPTS) 1.

Definition callWanAlibabaAPI (net : Network) (prompt : string)
    (safeParams : ImageParams) (requestId : string) : M VideoGenerationResult :=
  match DASHSCOPE_API_KEY net with
  | Some apiKey =>
      if Js.truthy (Some apiKey) then
        let videoParams := prepareVideoParameters safeParams in
        let rawImageUrl := extractFirstImage (image safeParams) in
        let mode := if Js.truthy rawImageUrl then "I2V" else "T2V" in
        emit (UpdateBar requestId 35 "Processing"
                ("Starting video generation with Wan 2.6 (" ++ mode ++ ")...")) ;;
        imageDataUri <-
          match rawImageUrl with
          | Some u =>
              if Js.truthy rawImageUrl then
                emit (ImageDownload u) ;;
                match downloadImageAsBase64 u with
                | Returned (base64, mime) =>
                    ret (Some ("data:" ++ mime ++ ";base64," ++ base64))
                | Thrown e => throw e
                end
              else ret None
          | None => ret None
          end ;;
        requestBody <- buildDashScopeRequest prompt imageDataUri videoParams ;;
        taskId <- createDashScopeTask net apiKey requestBody requestId ;;
        result <- pollWanTask net taskId apiKey requestId ;;
        ret (createVideoResult (fst result) videoParams (Some (snd result)))
      else
        throw (Http (mkHttpError
          "DASHSCOPE_API_KEY environment variable is required for Wan model" 500))
  | None =>
      throw (Http (mkHttpError
        "DASHSCOPE_API_KEY environment variable is required for Wan model" 500))
  end.

Definition callWanAPI := callWanAlibabaAPI.

End Wan.

(** ** Example collaborators, providers and requests *)

Definition sampleResolution (q : ResolutionQuery) : ResolutionChoice :=
  {| rc_aspectRatio := "16:9"; rc_resolution := rq_defaultResolution q |}.

Definition sampleImageDownload (url : string) : Outcome (string * string) :=
  Returned ("aGVsbG8=", "image/png").

Definition sampleBytes : Buffer := [Byte.x00; Byte.x01; Byte.x02].

Definition taskCreated : Fetched (option WanTaskResponse) :=
  Responds (mkResponse 200 "" (Some
    {| created_task_id := Some "task-1";
       created_code := None;
       created_message := None |})).

Definition bodyOf (status : string) (url : option string)
    (msg : option string) (seconds : option Z) : WanTaskResult :=
  {| output := Some {| task_status := Some status;
                       video_url := url;
                       out_message := msg |};
     video_duration := seconds;
     top_message := None |}.

Definition pollBody (status : string) (url : option string)
    (msg : option string) (seconds : option Z) : Fetched (option WanTaskResult) :=
  Responds (mkResponse 200 "" (Some (bodyOf status url msg seconds))).

Definition pollStatus (code : Z) (text : string) : Fetched (option WanTaskResult) :=
  Responds (mkResponse code text None).

Definition videoServed : Fetched Buffer :=
  Responds (mkResponse 200 "" sampleBytes).

(** A provider that answers the [n]-th poll with [answers n]. *)
Definition provider (answers : Z -> Fetched (option WanTaskResult)) : Network :=
  {| DASHSCOPE_API_KEY := Some "sk-test";
     submit_answer := fun _ => taskCreated;
     poll_answer := fun _ n => answers n;
     video_answer := fun _ => videoServed |}.

Definition params (d : option Z) (img : ImageField) : ImageParams :=
  {| duration := d; width := None; height := None; aspectRatio := None;
     audio := None; image := img |}.

(** A run of the job for the request [p] against the provider [net]. *)
Definition job (net : Network) (p : ImageParams) : M VideoGenerationResult :=
  callWanAPI sampleResolution sampleImageDownload net "a red fox" p "req-1".

(** ** What is observed of a trace *)

(** The number of poll requests sent. *)
Fixpoint polls (t : list Event) : nat :=
  match t with
  | [] => O
  | PollGet _ :: r => S (polls r)
  | _ :: r => polls r
  end.

(** The percentages given to the progress bar, in order. *)
Fixpoint percents (t : list Event) : list Z :=
  match t with
  | [] => []
  | UpdateBar _ p _ _ :: r => p :: percents r
  | _ :: r => percents r
  end.

(** The URL polled for a task: [`${DASHSCOPE_API_BASE}/tasks/${taskId}`]. *)
Definition pollUrlOf (taskId : string) : string :=
  DASHSCOPE_API_BASE ++ "/tasks/" ++ taskId.

(** The progress message of an attempt. *)
Definition pollMessage (attempt : Z) : string :=
  "Generating video... (" ++ Js.show attempt ++ "/"
    ++ Js.show POLL_MAX_ATTEMPTS ++ ")".

(** The two events of one poll attempt. *)
Definition attemptEvents (url rid : string) (attempt : Z) : list Event :=
  [UpdateBar rid (progressPercent attempt) "Processing" (pollMessage attempt);
   PollGet url].

(** The events of [n] attempts in a row, from [attempt] on, that each found
    the task pending: progress, poll, pause. *)
Fixpoint pendingEvents (url rid : string) (n : nat) (attempt : Z) : list Event :=
  match n with
  | O => []
  | S n' =>
      (attemptEvents url rid attempt ++ [Sleep POLL_DELAY_MS])
        ++ pendingEvents url rid n' (attempt + 1)
  end%list.

(** The events of a download that succeeds. *)
Definition downloadEvents (videoUrl rid : string) : list Event :=
  [UpdateBar rid 90 "Processing" "Downloading video...";
   VideoGet videoUrl;
   UpdateBar rid 95 "Success" "Video generation completed"].

(** The errors the module throws by name. *)
Definition timedOut : Exn :=
  Http (mkHttpError "Video generation timed out after 5 minutes" 504).

Definition missingVideoUrl : Exn :=
  Http (mkHttpError "No video URL in completed response" 500).

Definition invalidImageUrl : Exn :=
  Http (mkHttpError "Invalid image URL: must be http/https or data URI" 400).

(** The status word of a poll body, as [pollTaskOnce] reads it. *)
Definition statusOf (data : WanTaskResult) : option string :=
  match output data with
  | Some o => option_map Js.toUpperCase (task_status o)
  | None => None
  end.

(** The reason a poll body gives for a failure:
    [data.output?.message || data.message]. *)
Definition reasonOf (data : WanTaskResult) : option string :=
  Js.or_else
    (match output data with
     | Some o => out_message o
     | None => None
     end)
    (top_message data).

(** The video URL of a poll body: [data.output?.video_url]. *)
Definition videoUrlOf (data : WanTaskResult) : option string :=
  match output data with
  | Some o => video_url o
  | None => None
  end.

(** The job up to the creation of the task: the statements of
    [callWanAlibabaAPI] that come before the call of [pollWanTask], giving
    the API key, the video parameters and the task id that the rest of the
    function uses. *)
Definition startJob
    (calculateVideoResolution : ResolutionQuery -> ResolutionChoice)
    (downloadImageAsBase64 : string -> Outcome (string * string))
    (net : Network) (prompt : string) (safeParams : ImageParams)
    (requestId : string) : M (string * VideoParams * string) :=
  match DASHSCOPE_API_KEY net with
  | Some apiKey =>
      if Js.truthy (Some apiKey) then
        let videoParams :=
          prepareVideoParameters calculateVideoResolution safeParams in
        let rawImageUrl := extractFirstImage (image safeParams) in
        let mode := if Js.truthy rawImageUrl then "I2V" else "T2V" in
        emit (UpdateBar requestId 35 "Processing"
                ("Starting video generation with Wan 2.6 (" ++ mode ++ ")...")) ;;
        imageDataUri <-
          match rawImageUrl with
          | Some u =>
              if Js.truthy rawImageUrl then
                emit (ImageDownload u) ;;
                match downloadImageAsBase64 u with
                | Returned (base64, mime) =>
                    ret (Some ("data:" ++ mime ++ ";base64," ++ base64))
                | Thrown e => throw e
                end
              else ret None
          | None => ret None
          end ;;
        requestBody <- buildDashScopeRequest prompt imageDataUri videoParams ;;
        taskId <- createDashScopeTask net apiKey requestBody requestId ;;
        ret (apiKey, videoParams, taskId)
      else
        throw (Http (mkHttpError
          "DASHSCOPE_API_KEY environment variable is required for Wan model" 500))
  | None =>
      throw (Http (mkHttpError
        "DASHSCOPE_API_KEY environment variable is required for Wan model" 500))
  end.

(** An attempt that leaves the task pending. *)
Definition pendingAt (net : Network) (url apiKey rid : string) (attempt : Z) : Prop :=
  outcome (pollTaskOnce net url apiKey attempt rid) = Returned Pending.

(** The request body built from the video parameters and an image that is
    absent or already a data URI. *)
Definition requestBodyOf (prompt : string) (dataUri : option string)
    (vp : VideoParams) : DashScopeRequest :=
  {| model := if Js.truthy dataUri then WAN_I2V_MODEL else WAN_T2V_MODEL;
     input_prompt := prompt;
     input_img_url := if Js.truthy dataUri then dataUri else None;
     param_resolution := vp_resolution vp;
     param_duration := vp_durationSeconds vp;
     param_prompt_extend := true;
     param_audio := vp_generateAudio vp |}.

Definition submitUrl : string :=
  DASHSCOPE_API_BASE ++ "/services/aigc/video-generation/video-synthesis".

Definition missingApiKey : Exn :=
  Http (mkHttpError
    "DASHSCOPE_API_KEY environment variable is required for Wan model" 500).

(** The progress events of the job before polling. *)
Definition startedEvent (rid : string) (rawImageUrl : option string) : Event :=
  UpdateBar rid 35 "Processing"
    ("Starting video generation with Wan 2.6 ("
       ++ (if Js.truthy rawImageUrl then "I2V" else "T2V") ++ ")...").

Definition submittingEvent (rid : string) : Event :=
  UpdateBar rid 45 "Processing" "Initiating video generation...".

Definition submittedEvent (rid : string) : Event :=
  UpdateBar rid 50 "Processing" "Generating video (this takes 1-5 minutes)...".

(** The data URI the job builds from a downloaded image. *)
Definition dataUriOf (base64 mime : string) : string :=
  "data:" ++ mime ++ ";base64," ++ base64.

(** The image step of the job: nothing to do without a usable first image,
    else the image is downloaded and becomes a data URI. *)
Inductive ImageStep (dl : string -> Outcome (string * string))
    (rawImageUrl : option string) : list Event -> option string -> Prop :=
| NoImageStep :
    Js.truthy rawImageUrl = false ->
    ImageStep dl rawImageUrl [] None
| DownloadedStep (u base64 mime : string) :
    rawImageUrl = Some u ->
    Js.truthy rawImageUrl = true ->
    dl u = Returned (base64, mime) ->
    ImageStep dl rawImageUrl [ImageDownload u] (Some (dataUriOf base64 mime)).

(** The ways [startJob] can go: no API key; the image download throws; the
    submission throws; the task is created. *)
Inductive StartShape
    (calc : ResolutionQuery -> ResolutionChoice)
    (dl : string -> Outcome (string * string))
    (net : Network) (prompt : string) (p : ImageParams) (rid : string)
    : M (string * VideoParams * string) -> Prop :=
| StartNoKey :
    Js.truthy (DASHSCOPE_API_KEY net) = false ->
    StartShape calc dl net prompt p rid ([], Thrown missingApiKey)
| StartImageFailed (u : string) (e : Exn) :
    Js.truthy (DASHSCOPE_API_KEY net) = true ->
    extractFirstImage (image p) = Some u ->
    Js.truthy (Some u) = true ->
    dl u = Thrown e ->
    StartShape calc dl net prompt p rid
      ([startedEvent rid (Some u); ImageDownload u], Thrown e)
| StartSubmitFailed (imageEvents : list Event) (dataUri : option string) (e : Exn) :
    Js.truthy (DASHSCOPE_API_KEY net) = true ->
    ImageStep dl (extractFirstImage (image p)) imageEvents dataUri ->
    StartShape calc dl net prompt p rid
      ((startedEvent rid (extractFirstImage (image p)) :: imageEvents
          ++ [submittingEvent rid;
              SubmitPost submitUrl
                (requestBodyOf prompt dataUri (prepareVideoParameters calc p))])%list,
       Thrown e)
| StartCreated (imageEvents : list Event) (dataUri : option string)
    (apiKey taskId : string) :
    DASHSCOPE_API_KEY net = Some apiKey ->
    ImageStep dl (extractFirstImage (image p)) imageEvents dataUri ->
    StartShape calc dl net prompt p rid
      ((startedEvent rid (extractFirstImage (image p)) :: imageEvents
          ++ [submittingEvent rid;
              SubmitPost submitUrl
                (requestBodyOf prompt dataUri (prepareVideoParameters calc p));
              submittedEvent rid])%list,
       Returned (apiKey, prepareVideoParameters calc p, taskId)).

Definition running : Fetched (option WanTaskResult) :=
  pollBody "RUNNING" None None None.

(** Every poll finds the task running. *)
Definition alwaysRunning : Network := provider (fun _ => running).

(** The connection drops on the first poll; the task would have succeeded
    on the second. *)
Definition droppedConnection : Network :=
  provider (fun n =>
    if n =? 1 then Rejects "ECONNRESET"
    else pollBody "SUCCEEDED" (Some "https://cdn.example/v.mp4") None (Some 5)).

(** Two polls find the task running, the third a video of 7 seconds. *)
Definition sevenSeconds : Network :=
  provider (fun n =>
    if n <? 3 then running
    else pollBody "SUCCEEDED" (Some "https://cdn.example/v.mp4") None (Some 7)).

(** Two polls find the task running, the third says it succeeded and gives
    no video URL. *)
Definition succeededWithoutUrl : Network :=
  provider (fun n =>
    if n <? 3 then running else pollBody "succeeded" None None None).

(** One poll finds the task running, the second says it failed. *)
Definition failedUnsafe : Network :=
  provider (fun n =>
    if n <? 2 then running
    else pollBody "FAILED" None (Some "unsafe content") None).

(** The first poll says the task was canceled, and why. *)
Definition canceledUnsafe : Network :=
  provider (fun _ => pollBody "CANCELED" None (Some "unsafe content") None).


Definition fiveSeconds : ImageParams := params (Some 5) NoImage.

(** The same run, up to the creation of the task. *)
Definition startedJob (net : Network) (p : ImageParams)
    : M (string * VideoParams * string) :=
  startJob sampleResolution sampleImageDownload net "a red fox" p "req-1".

(** The durations sent to the provider, in order. *)
Fixpoint submittedDurations (t : list Event) : list Z :=
  match t with
  | [] => []
  | SubmitPost _ body :: r => param_duration body :: submittedDurations r
  | _ :: r => submittedDurations r
  end.

(** The same request with another duration, or with another image. *)
Definition withDuration (p : ImageParams) (d : option Z) : ImageParams :=
  {| duration := d; width := width p; height := height p;
     aspectRatio := aspectRatio p; audio := audio p; image := image p |}.

Definition withImage (p : ImageParams) (img : ImageField) : ImageParams :=
  {| duration := duration p; width := width p; height := height p;
     aspectRatio := aspectRatio p; audio := audio p; image := img |}.

Definition zeroSeconds : ImageParams := params (Some 0) NoImage.
Definition oneSecond : ImageParams := params (Some 1) NoImage.
Definition unspecifiedDuration : ImageParams := params None NoImage.


Definition twoImages : ImageParams :=
  params (Some 5)
    (ManyImages ["https://img.example/a.png"; "https://img.example/b.png"]).

(** ** Further observations and examples *)

(** The object that [logRequestSafely] hands to [JSON.stringify]: the
    request, with [input.img_url] replaced by a marker when it is a data
    URI. *)
Definition safeRequestOf (requestBody : DashScopeRequest) : DashScopeRequest :=
  {| model := model requestBody;
     input_prompt := input_prompt requestBody;
     input_img_url :=
       match input_img_url requestBody with
       | Some u => if Js.startsWith u "data:" then Some "[base64]" else Some u
       | None => None
       end;
     param_resolution := param_resolution requestBody;
     param_duration := param_duration requestBody;
     param_prompt_extend := param_prompt_extend requestBody;
     param_audio := param_audio requestBody |}.

(** The statements of [callWanAlibabaAPI] from the call of
    [createDashScopeTask] on. *)
Definition finishJob (net : Network) (apiKey rid : string) (vp : VideoParams)
    (requestBody : DashScopeRequest) : M VideoGenerationResult :=
  taskId <- createDashScopeTask net apiKey requestBody rid ;;
  result <- pollWanTask net taskId apiKey rid ;;
  ret (createVideoResult (fst result) vp (Some (snd result))).

(** The submissions sent, in order: the URL and the body of each. *)
Fixpoint submitted (t : list Event) : list (string * DashScopeRequest) :=
  match t with
  | [] => []
  | SubmitPost url body :: r => (url, body) :: submitted r
  | _ :: r => submitted r
  end.

(** The images and the videos requested, in order, by URL. *)
Fixpoint imagesRequested (t : list Event) : list string :=
  match t with
  | [] => []
  | ImageDownload url :: r => url :: imagesRequested r
  | _ :: r => imagesRequested r
  end.

Fixpoint videosRequested (t : list Event) : list string :=
  match t with
  | [] => []
  | VideoGet url :: r => url :: videosRequested r
  | _ :: r => videosRequested r
  end.

(** The URLs polled, in order. *)
Fixpoint polled (t : list Event) : list string :=
  match t with
  | [] => []
  | PollGet url :: r => url :: polled r
  | _ :: r => polled r
  end.

(** The pauses taken, in order, in milliseconds. *)
Fixpoint pauses (t : list Event) : list Z :=
  match t with
  | [] => []
  | Sleep ms :: r => ms :: pauses r
  | _ :: r => pauses r
  end.

(** The time spent pausing, in milliseconds. *)
Definition pausedFor (t : list Event) : Z := fold_right Z.add 0 (pauses t).

(** A provider given by its three answers. *)
Definition providerWith (created : Fetched (option WanTaskResponse))
    (answers : Z -> Fetched (option WanTaskResult)) (video : Fetched Buffer)
    : Network :=
  {| DASHSCOPE_API_KEY := Some "sk-test";
     submit_answer := fun _ => created;
     poll_answer := fun _ n => answers n;
     video_answer := fun _ => video |}.

Definition succeeded : Fetched (option WanTaskResult) :=
  pollBody "SUCCEEDED" (Some "https://cdn.example/v.mp4") None (Some 7).

(** The submission is answered 429. *)
Definition rateLimited : Network :=
  providerWith (Responds (mkResponse 429 "rate limited" None))
    (fun _ => running) videoServed.

(** The submission is answered 200 with an error code in the body, next to
    a task id. *)
Definition invalidParameter : Network :=
  providerWith
    (Responds (mkResponse 200 "" (Some
       {| created_task_id := Some "task-9";
          created_code := Some "InvalidParameter";
          created_message := Some "prompt is too long" |})))
    (fun _ => running) videoServed.

(** The submission is answered 200 with neither code nor task id. *)
Definition withoutTaskId : Network :=
  providerWith
    (Responds (mkResponse 200 "" (Some
       {| created_task_id := None;
          created_code := None;
          created_message := None |})))
    (fun _ => running) videoServed.

(** The third poll finds the video; its download is answered 404. *)
Definition videoGone : Network :=
  providerWith taskCreated (fun n => if n <? 3 then running else succeeded)
    (Responds (mkResponse 404 "" [])).

(** The second poll is answered 200 with a body that is not JSON. *)
Definition notJson : Network :=
  provider (fun n =>
    if n <? 2 then running else Responds (mkResponse 200 "<html>" None)).

(** The first poll is answered 503, the second 403. *)
Definition forbidden : Network :=
  provider (fun n =>
    if n <? 2 then pollStatus 503 "busy" else pollStatus 403 "denied").

(** The request body of the example requests without image. *)
Definition textRequest (p : ImageParams) : DashScopeRequest :=
  requestBodyOf "a red fox" None (prepareVideoParameters sampleResolution p).

(** A list of images whose first entry is empty. *)
Definition emptyFirstImage : ImageParams :=
  params (Some 5) (ManyImages [""; "https://img.example/b.png"]).

(** The network drops the submission. *)
Definition unreachable : Network :=
  providerWith (Rejects "ENOTFOUND") (fun _ => running) videoServed.


(** Whether a string is ASCII. *)
Fixpoint isAscii (s : string) : bool :=
  match s with
  | EmptyString => true
  | String c r => (nat_of_ascii c <? 128)%nat && isAscii r
  end.

(** Whether the status word in the answer to a poll, when there is one, is
    ASCII. *)
Definition statusIsAscii (answer : Fetched (option WanTaskResult)) : bool :=
  match answer with
  | Rejects _ => true
  | Responds r =>
      match resp_body r with
      | Some data =>
          match output data with
          | Some o =>
              match task_status o with
              | Some s => isAscii s
              | None => true
              end
          | None => true
          end
      | None => true
      end
  end.

(** ** Laws of the effects *)

Lemma bind_unfold {A B} (m : M A) (k : A -> M B) :
  bind m k =
  match outcome m with
  | Returned a => ((trace m ++ trace (k a))%list, outcome (k a))
  | Thrown e => (trace m, Thrown e)
  end.
Proof.
  destruct m as [t [a | e]]; cbn; [destruct (k a); reflexivity | reflexivity].
Qed.

Lemma bind_returned {A B} (m : M A) (k : A -> M B) (a : A) :
  outcome m = Returned a ->
  bind m k = ((trace m ++ trace (k a))%list, outcome (k a)).
Proof. intros H; rewrite bind_unfold, H; reflexivity. Qed.

Lemma bind_thrown {A B} (m : M A) (k : A -> M B) (e : Exn) :
  outcome m = Thrown e ->
  bind m k = (trace m, Thrown e).
Proof. intros H; rewrite bind_unfold, H; reflexivity. Qed.

Lemma bind_assoc {A B C} (m : M A) (k : A -> M B) (h : B -> M C) :
  bind (bind m k) h = bind m (fun a => bind (k a) h).
Proof.
  destruct m as [t [a | e]]; cbn; [| reflexivity].
  destruct (k a) as [t' [b | e']]; cbn; [| reflexivity].
  destruct (h b) as [t'' r]; rewrite app_assoc; reflexivity.
Qed.

Lemma M_eta {A} (m : M A) : m = (trace m, outcome m).
Proof. destruct m; reflexivity. Qed.

Lemma polls_app (s t : list Event) : polls (s ++ t) = (polls s + polls t)%nat.
Proof.
  induction s as [| ev s IH]; [reflexivity |].
  destruct ev; cbn; rewrite IH; reflexivity.
Qed.

Lemma percents_app (s t : list Event) :
  percents (s ++ t) = (percents s ++ percents t)%list.
Proof.
  induction s as [| ev s IH]; [reflexivity |].
  destruct ev; cbn; rewrite IH; reflexivity.
Qed.

(** ** One poll attempt *)

Ltac run_poll :=
  unfold pollTaskOnce, awaitFetch, awaitJson, statusOf, videoUrlOf, reasonOf in *;
  cbn [bind emit ret throw outcome trace fst snd app] in *.

Ltac step_effects :=
  cbn [negb bind emit ret throw outcome trace fst snd app] in *.

(** Whatever the answer, an attempt reports its progress and sends one
    request. *)
Lemma pollTaskOnce_trace net url key a rid :
  trace (pollTaskOnce net url key a rid) = attemptEvents url rid a.
Proof.
  run_poll.
  destruct (poll_answer net url a) as [reason | r]; [reflexivity |].
  step_effects.
  destruct (ok r); step_effects.
  - destruct (resp_body r) as [data |]; step_effects; [| reflexivity].
    destruct (Js.equals _ "SUCCEEDED").
    + destruct (output data) as [o |]; [| reflexivity].
      destruct (video_url o) as [u |]; [| reflexivity].
      destruct (Js.truthy (Some u)); reflexivity.
    + destruct (Js.equals _ "FAILED"); [reflexivity |].
      destruct (Js.equals _ "CANCELED"); reflexivity.
  - destruct ((400 <=? resp_status r) && (resp_status r <? 500)); reflexivity.
Qed.

Lemma pollTaskOnce_rejected net url key a rid reason :
  poll_answer net url a = Rejects reason ->
  outcome (pollTaskOnce net url key a rid) = Thrown (FetchRejected reason).
Proof. intros H. run_poll. rewrite H. reflexivity. Qed.

Lemma pollTaskOnce_not_ok net url key a rid r :
  poll_answer net url a = Responds r ->
  ok r = false ->
  outcome (pollTaskOnce net url key a rid) =
  Returned
    (if (400 <=? resp_status r) && (resp_status r <? 500)
     then Failed ("DashScope poll failed (" ++ Js.show (resp_status r) ++ "): "
                    ++ resp_text r)
     else Pending).
Proof.
  intros H Hok. run_poll. rewrite H.
  cbn [bind emit ret throw outcome trace fst snd app]. rewrite Hok. cbn [negb].
  destruct ((400 <=? resp_status r) && (resp_status r <? 500)); reflexivity.
Qed.

Lemma pollTaskOnce_not_json net url key a rid r :
  poll_answer net url a = Responds r ->
  ok r = true ->
  resp_body r = None ->
  outcome (pollTaskOnce net url key a rid) = Thrown JsonRejected.
Proof.
  intros H Hok Hbody. run_poll. rewrite H.
  cbn [bind emit ret throw outcome trace fst snd app].
  rewrite Hok, Hbody. reflexivity.
Qed.

(** The decision taken on the body of a successful response. *)
Lemma pollTaskOnce_ok net url key a rid r data :
  poll_answer net url a = Responds r ->
  ok r = true ->
  resp_body r = Some data ->
  outcome (pollTaskOnce net url key a rid) =
  if Js.equals (statusOf data) "SUCCEEDED" then
    match videoUrlOf data with
    | Some u =>
        if Js.truthy (Some u)
        then Returned (Completed u (Js.num_or (video_duration data) 0))
        else Thrown missingVideoUrl
    | None => Thrown missingVideoUrl
    end
  else if Js.equals (statusOf data) "FAILED" then
    Returned (Failed (Js.or_default (reasonOf data) "Video generation failed"))
  else if Js.equals (statusOf data) "CANCELED" then
    Returned (Failed "Video generation was canceled")
  else
    Returned Pending.
Proof.
  intros H Hok Hbody. run_poll. rewrite H.
  cbn [bind emit ret throw outcome trace fst snd app].
  rewrite Hok, Hbody. step_effects.
  destruct (Js.equals _ "SUCCEEDED").
  - destruct (output data) as [o |]; [| reflexivity].
    destruct (video_url o) as [u |]; [| reflexivity].
    destruct (Js.truthy (Some u)); reflexivity.
  - destruct (Js.equals _ "FAILED"); [reflexivity |].
    destruct (Js.equals _ "CANCELED"); reflexivity.
Qed.


(** ** The download of the video *)

Lemma downloadVideo_ok net u rid r :
  video_answer net u = Responds r ->
  ok r = true ->
  downloadVideo net u rid = (downloadEvents u rid, Returned (resp_body r)).
Proof.
  intros H Hok. unfold downloadVideo, awaitFetch. rewrite H.
  step_effects. rewrite Hok. reflexivity.
Qed.

(** A download either succeeds, with the three events of a success, or
    throws after the request without reporting completion. *)
Lemma downloadVideo_cases net u rid :
  (exists r, video_answer net u = Responds r /\ ok r = true /\
             downloadVideo net u rid = (downloadEvents u rid, Returned (resp_body r)))
  \/
  (exists e, downloadVideo net u rid =
             ([UpdateBar rid 90 "Processing" "Downloading video..."; VideoGet u],
              Thrown e)).
Proof.
  destruct (video_answer net u) as [reason | r] eqn:H.
  - right. exists (FetchRejected reason).
    unfold downloadVideo, awaitFetch. rewrite H. reflexivity.
  - destruct (ok r) eqn:Hok.
    + left. exists r. auto using downloadVideo_ok.
    + right. eexists. unfold downloadVideo, awaitFetch. rewrite H.
      step_effects. rewrite Hok. reflexivity.
Qed.

(** ** The loop *)

(** One iteration, by the outcome of its attempt. *)
Lemma pollLoop_step net url key rid n a :
  pollLoop net url key rid (S n) a =
  match outcome (pollTaskOnce net url key a rid) with
  | Returned Pending =>
      ((attemptEvents url rid a ++ [Sleep POLL_DELAY_MS])
         ++ trace (pollLoop net url key rid n (a + 1)),
       outcome (pollLoop net url key rid n (a + 1)))%list
  | Returned (Completed u d) =>
      ((attemptEvents url rid a ++ trace (downloadVideo net u rid))%list,
       match outcome (downloadVideo net u rid) with
       | Returned b => Returned (b, d)
       | Thrown e => Thrown e
       end)
  | Returned (Failed err) =>
      (attemptEvents url rid a, Thrown (Http (mkHttpError err 500)))
  | Thrown e => (attemptEvents url rid a, Thrown e)
  end.
Proof.
  cbn [pollLoop]. rewrite bind_unfold, pollTaskOnce_trace.
  destruct (outcome (pollTaskOnce net url key a rid)) as [[| u d | err] | e].
  - rewrite bind_unfold. cbn [emit outcome trace fst snd].
    rewrite app_assoc. reflexivity.
  - rewrite bind_unfold.
    destruct (outcome (downloadVideo net u rid)); step_effects; [| reflexivity].
    rewrite app_nil_r. reflexivity.
  - step_effects. rewrite app_nil_r. reflexivity.
  - reflexivity.
Qed.

(** A run of pending attempts: the loop pauses after each and goes on. *)
Lemma pollLoop_pending_run net url key rid :
  forall (j n : nat) (a : Z),
    (forall i, a <= i < a + Z.of_nat j -> pendingAt net url key rid i) ->
    pollLoop net url key rid (j + n) a =
    ((pendingEvents url rid j a
        ++ trace (pollLoop net url key rid n (a + Z.of_nat j)))%list,
     outcome (pollLoop net url key rid n (a + Z.of_nat j))).
Proof.
  induction j as [| j IH]; intros n a Hpending.
  - cbn [Nat.add pendingEvents app]. rewrite Z.add_0_r. apply M_eta.
  - change (S j + n)%nat with (S (j + n)). rewrite pollLoop_step.
    rewrite (Hpending a) by lia.
    rewrite IH by (intros i Hi; apply Hpending; lia).
    cbn [trace outcome fst snd pendingEvents].
    replace (a + 1 + Z.of_nat j) with (a + Z.of_nat (S j)) by lia.
    rewrite <- !app_assoc. reflexivity.
Qed.

(** When every iteration finds the task pending, the statement after the
    loop runs. *)
Lemma pollLoop_all_pending net url key rid (n : nat) (a : Z) :
  (forall i, a <= i < a + Z.of_nat n -> pendingAt net url key rid i) ->
  pollLoop net url key rid n a = (pendingEvents url rid n a, Thrown timedOut).
Proof.
  intros H. rewrite <- (Nat.add_0_r n) at 1.
  rewrite pollLoop_pending_run by assumption.
  cbn [pollLoop throw trace outcome fst snd]. rewrite app_nil_r. reflexivity.
Qed.

Lemma polls_pendingEvents url rid (n : nat) (a : Z) :
  polls (pendingEvents url rid n a) = n.
Proof.
  revert a. induction n as [| n IH]; intros a; [reflexivity |].
  cbn. rewrite IH. reflexivity.
Qed.

(** The attempt at [a + j] is the first that does not find the task pending:
    the loop ends there, as one iteration from [a + j] does. *)
Lemma pollLoop_first_terminal net url key rid (j n : nat) (a : Z) :
  (forall i, a <= i < a + Z.of_nat j -> pendingAt net url key rid i) ->
  ~ pendingAt net url key rid (a + Z.of_nat j) ->
  pollLoop net url key rid (j + S n) a =
  ((pendingEvents url rid j a
      ++ trace (pollLoop net url key rid 1 (a + Z.of_nat j)))%list,
   outcome (pollLoop net url key rid 1 (a + Z.of_nat j))).
Proof.
  intros Hpending Hterminal.
  rewrite pollLoop_pending_run by assumption.
  rewrite !pollLoop_step. unfold pendingAt in Hterminal.
  destruct (outcome (pollTaskOnce net url key (a + Z.of_nat j) rid))
    as [[| u d | err] | e]; try reflexivity.
  contradiction.
Qed.

(** A loop that returns found the task pending for some attempts, then
    completed, and then downloaded the video. *)
Lemma pollLoop_returned_inv net url key rid :
  forall (n : nat) (a : Z) t buf d,
    pollLoop net url key rid n a = (t, Returned (buf, d)) ->
    exists (j : nat) u r,
      (j < n)%nat /\
      (forall i, a <= i < a + Z.of_nat j -> pendingAt net url key rid i) /\
      outcome (pollTaskOnce net url key (a + Z.of_nat j) rid)
        = Returned (Completed u d) /\
      video_answer net u = Responds r /\ ok r = true /\ buf = resp_body r /\
      t = (pendingEvents url rid j a
             ++ attemptEvents url rid (a + Z.of_nat j)
             ++ downloadEvents u rid)%list.
Proof.
  induction n as [| n IH]; intros a t buf d H.
  - discriminate.
  - rewrite pollLoop_step in H.
    destruct (outcome (pollTaskOnce net url key a rid))
      as [[| u d' | err] | e] eqn:Hpoll; try discriminate.
    + injection H as Ht Ho.
      destruct (IH (a + 1) _ buf d (eq_trans (M_eta _) (f_equal _ Ho)))
        as (j & u & r & Hj & Hpending & Hdone & Hv & Hok & Hbuf & Htrace).
      exists (S j), u, r. repeat split; try assumption.
      * lia.
      * intros i Hi. destruct (Z.eq_dec i a) as [-> | Hne]; [exact Hpoll |].
        apply Hpending. lia.
      * replace (a + Z.of_nat (S j)) with (a + 1 + Z.of_nat j) by lia.
        assumption.
      * subst t. rewrite Htrace. cbn [pendingEvents].
        replace (a + Z.of_nat (S j)) with (a + 1 + Z.of_nat j) by lia.
        reflexivity.
    + destruct (downloadVideo_cases net u rid)
        as [(r & Hv & Hok & Hrun) | (e & Hrun)];
        rewrite Hrun in H; cbn [outcome trace fst snd] in H; [| discriminate].
      injection H as Ht Hbuf Hd. subst d'.
      exists O, u, r. rewrite Z.add_0_r.
      repeat split; auto; first [lia | intros; lia].
Qed.

(** ** The job before polling *)

Lemma bind_ret_l {A B} (a : A) (k : A -> M B) : bind (ret a) k = k a.
Proof. unfold bind, ret. destruct (k a); reflexivity. Qed.

Lemma bind_ext {A B} (m : M A) (k k' : A -> M B) :
  (forall a, k a = k' a) -> bind m k = bind m k'.
Proof.
  intros H. destruct m as [t [a | e]]; cbn; [rewrite H |]; reflexivity.
Qed.

(** [callWanAlibabaAPI] is [startJob] followed by the polling and the
    assembly of the result. *)
Lemma callWanAlibabaAPI_startJob calc dl net prompt p rid :
  callWanAlibabaAPI calc dl net prompt p rid =
  bind (startJob calc dl net prompt p rid)
    (fun started =>
       let '(apiKey, videoParams, taskId) := started in
       result <- pollWanTask net taskId apiKey rid ;;
       ret (createVideoResult (fst result) videoParams (Some (snd result)))).
Proof.
  unfold callWanAlibabaAPI, startJob.
  destruct (DASHSCOPE_API_KEY net) as [apiKey |]; [| reflexivity].
  destruct (Js.truthy (Some apiKey)); [| reflexivity].
  cbv zeta.
  rewrite bind_assoc. apply bind_ext. intros _.
  rewrite bind_assoc. apply bind_ext. intros imageDataUri.
  rewrite bind_assoc. apply bind_ext. intros requestBody.
  rewrite bind_assoc. apply bind_ext. intros taskId.
  rewrite bind_ret_l. reflexivity.
Qed.



Lemma buildDashScopeRequest_none prompt vp :
  buildDashScopeRequest prompt None vp = ret (requestBodyOf prompt None vp).
Proof. reflexivity. Qed.

Lemma buildDashScopeRequest_data prompt rest vp :
  buildDashScopeRequest prompt (Some ("data:" ++ rest)) vp =
  ret (requestBodyOf prompt (Some ("data:" ++ rest)) vp).
Proof. destruct rest; reflexivity. Qed.

(** The submission reports its start, sends the request, and reports the
    creation of the task only when it returns the task id. *)
Lemma createDashScopeTask_cases net key body rid :
  (exists e, createDashScopeTask net key body rid =
             ([submittingEvent rid; SubmitPost submitUrl body], Thrown e))
  \/
  (exists taskId, createDashScopeTask net key body rid =
             ([submittingEvent rid; SubmitPost submitUrl body; submittedEvent rid],
              Returned taskId)).
Proof.
  unfold createDashScopeTask, awaitFetch, awaitJson.
  fold submitUrl. fold (submittingEvent rid). fold (submittedEvent rid).
  destruct (submit_answer net body) as [reason | r];
    [left; eexists; reflexivity |].
  step_effects.
  destruct (ok r); step_effects; [| left; eexists; reflexivity].
  destruct (resp_body r) as [data |]; step_effects;
    [| left; eexists; reflexivity].
  destruct (Js.truthy (created_code data)); [left; eexists; reflexivity |].
  destruct (created_task_id data) as [taskId |]; [| left; eexists; reflexivity].
  destruct (Js.truthy (Some taskId)); [right | left]; eexists; reflexivity.
Qed.

Lemma startJob_shape calc dl net prompt p rid :
  StartShape calc dl net prompt p rid (startJob calc dl net prompt p rid).
Proof.
  unfold startJob.
  destruct (DASHSCOPE_API_KEY net) as [apiKey |] eqn:Hkey;
    [| apply StartNoKey; rewrite Hkey; reflexivity].
  destruct (Js.truthy (Some apiKey)) eqn:Htruthy;
    [| apply StartNoKey; rewrite Hkey; exact Htruthy].
  assert (Hkey' : Js.truthy (DASHSCOPE_API_KEY net) = true)
    by (rewrite Hkey; exact Htruthy).
  cbv zeta. fold (startedEvent rid (extractFirstImage (image p))).
  assert (Hsubmit :
    forall imageEvents dataUri,
      ImageStep dl (extractFirstImage (image p)) imageEvents dataUri ->
      StartShape calc dl net prompt p rid
        ((startedEvent rid (extractFirstImage (image p)) :: imageEvents
            ++ trace (createDashScopeTask net apiKey
                        (requestBodyOf prompt dataUri (prepareVideoParameters calc p))
                        rid))%list,
         match outcome (createDashScopeTask net apiKey
                          (requestBodyOf prompt dataUri (prepareVideoParameters calc p))
                          rid) with
         | Returned taskId =>
             Returned (apiKey, prepareVideoParameters calc p, taskId)
         | Thrown e => Thrown e
         end)).
  { intros imageEvents dataUri Hstep.
    destruct (createDashScopeTask_cases net apiKey
                (requestBodyOf prompt dataUri (prepareVideoParameters calc p)) rid)
      as [(e & ->) | (taskId & ->)]; cbn [trace outcome fst snd].
    - now apply StartSubmitFailed.
    - now apply StartCreated. }
  destruct (extractFirstImage (image p)) as [u |] eqn:Hraw.
  - destruct (Js.truthy (Some u)) eqn:Hu.
    + destruct (dl u) as [[base64 mime] | e] eqn:Hdl.
      * step_effects.
        rewrite buildDashScopeRequest_data. fold (dataUriOf base64 mime).
        rewrite bind_ret_l, bind_unfold.
        specialize (Hsubmit [ImageDownload u] (Some (dataUriOf base64 mime))
                      (DownloadedStep dl (Some u) u base64 mime eq_refl Hu Hdl)).
        destruct (outcome (createDashScopeTask _ _ _ _)); step_effects;
          [rewrite app_nil_r |]; exact Hsubmit.
      * step_effects. now apply StartImageFailed.
    + step_effects. rewrite buildDashScopeRequest_none.
      rewrite bind_ret_l, bind_unfold.
      specialize (Hsubmit [] None (NoImageStep dl (Some u) Hu)).
      destruct (outcome (createDashScopeTask _ _ _ _)); step_effects;
        [rewrite app_nil_r |]; exact Hsubmit.
  - step_effects. rewrite buildDashScopeRequest_none.
    rewrite bind_ret_l, bind_unfold.
    specialize (Hsubmit [] None (NoImageStep dl None eq_refl)).
    destruct (outcome (createDashScopeTask _ _ _ _)); step_effects;
      [rewrite app_nil_r |]; exact Hsubmit.
Qed.

(** ** The whole job *)

Lemma job_start_failed calc dl net prompt p rid e :
  outcome (startJob calc dl net prompt p rid) = Thrown e ->
  callWanAPI calc dl net prompt p rid
  = (trace (startJob calc dl net prompt p rid), Thrown e).
Proof.
  intros H. unfold callWanAPI. rewrite callWanAlibabaAPI_startJob.
  now apply bind_thrown.
Qed.

Lemma job_after_start calc dl net prompt p rid apiKey vp taskId :
  outcome (startJob calc dl net prompt p rid) = Returned (apiKey, vp, taskId) ->
  callWanAPI calc dl net prompt p rid
  = ((trace (startJob calc dl net prompt p rid)
        ++ trace (pollWanTask net taskId apiKey rid))%list,
     match outcome (pollWanTask net taskId apiKey rid) with
     | Returned result =>
         Returned (createVideoResult (fst result) vp (Some (snd result)))
     | Thrown e => Thrown e
     end).
Proof.
  intros H. unfold callWanAPI. rewrite callWanAlibabaAPI_startJob.
  rewrite (bind_returned _ _ _ H). rewrite bind_unfold.
  destruct (outcome (pollWanTask net taskId apiKey rid)); step_effects;
    [rewrite app_nil_r |]; reflexivity.
Qed.

(** What is known when the task was created. *)
Lemma startJob_created_inv calc dl net prompt p rid apiKey vp taskId :
  outcome (startJob calc dl net prompt p rid) = Returned (apiKey, vp, taskId) ->
  DASHSCOPE_API_KEY net = Some apiKey /\
  vp = prepareVideoParameters calc p /\
  exists imageEvents dataUri,
    ImageStep dl (extractFirstImage (image p)) imageEvents dataUri /\
    trace (startJob calc dl net prompt p rid) =
    (startedEvent rid (extractFirstImage (image p)) :: imageEvents
       ++ [submittingEvent rid;
           SubmitPost submitUrl
             (requestBodyOf prompt dataUri (prepareVideoParameters calc p));
           submittedEvent rid])%list.
Proof.
  intros H. pose proof (startJob_shape calc dl net prompt p rid) as Hshape.
  destruct Hshape; cbn [outcome snd] in H; try discriminate.
  injection H as <- <- <-. repeat split; try assumption.
  exists imageEvents, dataUri. split; [assumption | reflexivity].
Qed.

Lemma ImageStep_percents dl raw imageEvents dataUri :
  ImageStep dl raw imageEvents dataUri ->
  percents imageEvents = [] /\ polls imageEvents = O.
Proof. intros []; split; reflexivity. Qed.

Lemma startJob_created_observed calc dl net prompt p rid apiKey vp taskId :
  outcome (startJob calc dl net prompt p rid) = Returned (apiKey, vp, taskId) ->
  percents (trace (startJob calc dl net prompt p rid)) = [35; 45; 50] /\
  polls (trace (startJob calc dl net prompt p rid)) = O.
Proof.
  intros H.
  destruct (startJob_created_inv _ _ _ _ _ _ _ _ _ H)
    as (_ & _ & imageEvents & dataUri & Hstep & ->).
  destruct (ImageStep_percents _ _ _ _ Hstep) as [Hp Hn].
  cbn [percents polls startedEvent]. rewrite percents_app, polls_app, Hp, Hn.
  split; reflexivity.
Qed.

(** The loop of [pollWanTask] ends at the first attempt that does not find
    the task pending. *)
Lemma pollWanTask_first_terminal net taskId apiKey rid (k : Z) :
  1 <= k <= POLL_MAX_ATTEMPTS ->
  (forall a, 1 <= a < k -> pendingAt net (pollUrlOf taskId) apiKey rid a) ->
  ~ pendingAt net (pollUrlOf taskId) apiKey rid k ->
  pollWanTask net taskId apiKey rid =
  ((pendingEvents (pollUrlOf taskId) rid (Z.to_nat (k - 1)) 1
      ++ trace (pollLoop net (pollUrlOf taskId) apiKey rid 1 k))%list,
   outcome (pollLoop net (pollUrlOf taskId) apiKey rid 1 k)).
Proof.
  intros Hk Hpending Hterminal. unfold pollWanTask. fold (pollUrlOf taskId).
  unfold POLL_MAX_ATTEMPTS in *.
  replace (Z.to_nat 60) with (Z.to_nat (k - 1) + S (Z.to_nat (60 - k)))%nat by lia.
  assert (Hat : 1 + Z.of_nat (Z.to_nat (k - 1)) = k) by lia.
  rewrite pollLoop_first_terminal; rewrite ?Hat;
    first [assumption | reflexivity | intros i Hi; apply Hpending; lia].
Qed.

(** A job whose [k]-th poll is the first not to find the task pending, and
    ends in a failure or an exception: the job ends with it, after [k] polls
    and without any download. *)
Lemma job_ends_at_poll calc dl net prompt p rid apiKey vp taskId (k : Z) e :
  outcome (startJob calc dl net prompt p rid) = Returned (apiKey, vp, taskId) ->
  1 <= k <= POLL_MAX_ATTEMPTS ->
  (forall a, 1 <= a < k -> pendingAt net (pollUrlOf taskId) apiKey rid a) ->
  (outcome (pollTaskOnce net (pollUrlOf taskId) apiKey k rid) = Thrown e \/
   exists error,
     outcome (pollTaskOnce net (pollUrlOf taskId) apiKey k rid)
       = Returned (Failed error) /\
     e = Http (mkHttpError error 500)) ->
  callWanAPI calc dl net prompt p rid =
  ((trace (startJob calc dl net prompt p rid)
      ++ pendingEvents (pollUrlOf taskId) rid (Z.to_nat (k - 1)) 1
      ++ attemptEvents (pollUrlOf taskId) rid k)%list,
   Thrown e).
Proof.
  intros Hstart Hk Hpending Hend.
  rewrite (job_after_start _ _ _ _ _ _ _ _ _ Hstart).
  rewrite (pollWanTask_first_terminal net taskId apiKey rid k Hk Hpending).
  - rewrite pollLoop_step.
    destruct Hend as [-> | (error & -> & ->)]; reflexivity.
  - unfold pendingAt.
    destruct Hend as [-> | (error & -> & _)]; discriminate.
Qed.

Lemma polls_job_ends_at_poll calc dl net prompt p rid apiKey vp taskId (k : Z) :
  outcome (startJob calc dl net prompt p rid) = Returned (apiKey, vp, taskId) ->
  1 <= k ->
  polls (trace (startJob calc dl net prompt p rid)
           ++ pendingEvents (pollUrlOf taskId) rid (Z.to_nat (k - 1)) 1
           ++ attemptEvents (pollUrlOf taskId) rid k) = Z.to_nat k.
Proof.
  intros Hstart Hk.
  destruct (startJob_created_observed _ _ _ _ _ _ _ _ _ Hstart) as [_ Hn].
  rewrite !polls_app, Hn, polls_pendingEvents. cbn [polls attemptEvents]. lia.
Qed.

(** * Properties of the job *)

(** ** Exhausted polling *)

(** C2: when the task was created and every poll attempt of the job finds it
    pending, the job polls exactly [POLL_MAX_ATTEMPTS] = 60 times, each poll
    followed by a pause, and then throws the [HttpError] of status 504; the
    trace holds no further poll. *)
Theorem polling_times_out_after_max_attempts
    calc dl net prompt p rid apiKey vp taskId :
  outcome (startJob calc dl net prompt p rid) = Returned (apiKey, vp, taskId) ->
  (forall attempt, 1 <= attempt <= POLL_MAX_ATTEMPTS ->
     pendingAt net (pollUrlOf taskId) apiKey rid attempt) ->
  outcome (callWanAPI calc dl net prompt p rid)
    = Thrown (Http (mkHttpError "Video generation timed out after 5 minutes" 504))
  /\ POLL_MAX_ATTEMPTS = 60
  /\ polls (trace (callWanAPI calc dl net prompt p rid)) = 60%nat
  /\ trace (callWanAPI calc dl net prompt p rid)
     = (trace (startJob calc dl net prompt p rid)
          ++ pendingEvents (pollUrlOf taskId) rid 60 1)%list.
Proof.
  intros Hstart Hpending.
  rewrite (job_after_start _ _ _ _ _ _ _ _ _ Hstart).
  unfold pollWanTask. fold (pollUrlOf taskId).
  rewrite pollLoop_all_pending.
  - destruct (startJob_created_observed _ _ _ _ _ _ _ _ _ Hstart) as [_ Hn].
    cbn [outcome trace fst snd]. repeat split.
    rewrite polls_app, Hn, polls_pendingEvents. reflexivity.
  - intros i Hi. apply Hpending. unfold POLL_MAX_ATTEMPTS in *. lia.
Qed.

Lemma running_is_pending (answers : Z -> Fetched (option WanTaskResult))
    url key rid attempt :
  answers attempt = running ->
  pendingAt (provider answers) url key rid attempt.
Proof.
  intros H. unfold pendingAt, pollTaskOnce, awaitFetch.
  cbn [poll_answer provider]. rewrite H. reflexivity.
Qed.

Lemma polling_times_out_after_max_attempts_witness :
  outcome (startedJob alwaysRunning fiveSeconds)
    = Returned ("sk-test", prepareVideoParameters sampleResolution fiveSeconds,
                "task-1")
  /\ (forall attempt, 1 <= attempt <= POLL_MAX_ATTEMPTS ->
      pendingAt alwaysRunning (pollUrlOf "task-1") "sk-test" "req-1" attempt)
  /\ outcome (job alwaysRunning fiveSeconds)
     = Thrown (Http (mkHttpError "Video generation timed out after 5 minutes" 504))
  /\ polls (trace (job alwaysRunning fiveSeconds)) = 60%nat.
Proof.
  assert (Hstart : outcome (startedJob alwaysRunning fiveSeconds)
            = Returned ("sk-test",
                        prepareVideoParameters sampleResolution fiveSeconds,
                        "task-1")) by reflexivity.
  assert (Hpending : forall attempt, 1 <= attempt <= POLL_MAX_ATTEMPTS ->
            pendingAt alwaysRunning (pollUrlOf "task-1") "sk-test" "req-1" attempt)
    by (intros attempt _; now apply running_is_pending).
  split; [exact Hstart |]. split; [exact Hpending |].
  pose proof (polling_times_out_after_max_attempts
                sampleResolution sampleImageDownload alwaysRunning "a red fox"
                fiveSeconds "req-1" "sk-test" _ "task-1" Hstart Hpending)
    as (Hout & _ & Hpolls & _).
  split; [exact Hout | exact Hpolls].
Defined.

(** ** Success without a video *)

(** C5: when the task was created and the first poll that does not find it
    pending says SUCCEEDED (in any letter case) and carries no usable video
    URL, the job throws the [HttpError] "No video URL in completed response"
    of status 500; it returns no result, and it stops polling there. *)
Theorem succeeded_without_video_url_is_an_error
    calc dl net prompt p rid apiKey vp taskId (k : Z) r data :
  outcome (startJob calc dl net prompt p rid) = Returned (apiKey, vp, taskId) ->
  1 <= k <= POLL_MAX_ATTEMPTS ->
  (forall a, 1 <= a < k -> pendingAt net (pollUrlOf taskId) apiKey rid a) ->
  poll_answer net (pollUrlOf taskId) k = Responds r ->
  ok r = true ->
  resp_body r = Some data ->
  statusOf data = Some "SUCCEEDED" ->
  Js.truthy (videoUrlOf data) = false ->
  outcome (callWanAPI calc dl net prompt p rid)
    = Thrown (Http (mkHttpError "No video URL in completed response" 500))
  /\ (forall result,
        outcome (callWanAPI calc dl net prompt p rid) <> Returned result)
  /\ polls (trace (callWanAPI calc dl net prompt p rid)) = Z.to_nat k.
Proof.
  intros Hstart Hk Hpending Hanswer Hok Hbody Hstatus Hurl.
  assert (Hthrows :
    outcome (pollTaskOnce net (pollUrlOf taskId) apiKey k rid)
      = Thrown missingVideoUrl).
  { rewrite (pollTaskOnce_ok _ _ _ _ _ _ _ Hanswer Hok Hbody), Hstatus.
    cbn [Js.equals]. change ("SUCCEEDED" =? "SUCCEEDED")%string with true.
    cbv iota. destruct (videoUrlOf data) as [u |]; [| reflexivity].
    rewrite Hurl. reflexivity. }
  rewrite (job_ends_at_poll _ _ _ _ _ _ _ _ _ k missingVideoUrl Hstart Hk Hpending)
    by (left; exact Hthrows).
  cbn [outcome trace fst snd]. repeat split.
  - discriminate.
  - apply (polls_job_ends_at_poll _ _ _ _ _ _ _ _ _ k Hstart). lia.
Qed.

Lemma succeeded_without_video_url_is_an_error_witness :
  outcome (startedJob succeededWithoutUrl fiveSeconds)
    = Returned ("sk-test", prepareVideoParameters sampleResolution fiveSeconds,
                "task-1")
  /\ outcome (job succeededWithoutUrl fiveSeconds)
     = Thrown (Http (mkHttpError "No video URL in completed response" 500))
  /\ polls (trace (job succeededWithoutUrl fiveSeconds)) = 3%nat.
Proof.
  assert (Hstart : outcome (startedJob succeededWithoutUrl fiveSeconds)
            = Returned ("sk-test",
                        prepareVideoParameters sampleResolution fiveSeconds,
                        "task-1")) by reflexivity.
  split; [exact Hstart |].
  destruct (succeeded_without_video_url_is_an_error
              sampleResolution sampleImageDownload succeededWithoutUrl
              "a red fox" fiveSeconds "req-1" "sk-test" _ "task-1" 3
              (mkResponse 200 "" (Some (bodyOf "succeeded" None None None)))
              (bodyOf "succeeded" None None None) Hstart)
    as (Hout & _ & Hpolls).
  - unfold POLL_MAX_ATTEMPTS. lia.
  - intros a Ha. apply running_is_pending.
    destruct (Z.ltb_spec a 3); [reflexivity | lia].
  - reflexivity.
  - reflexivity.
  - reflexivity.
  - reflexivity.
  - reflexivity.
  - split; [exact Hout | exact Hpolls].
Defined.

(** ** Failure reported by the provider *)

(** C6, as stated, fails for a canceled task: the error of the job has a
    fixed message, and a reason given by the provider is not in it. *)
Lemma canceled_reason_is_not_reported :
  reasonOf (bodyOf "CANCELED" None (Some "unsafe content") None)
    = Some "unsafe content"
  /\ exists e,
       outcome (job canceledUnsafe fiveSeconds) = Thrown (Http e)
       /\ err_status e = 500
       /\ err_message e = "Video generation was canceled"
       /\ Js.includes (err_message e) "unsafe content" = false.
Proof.
  split; [reflexivity |].
  exists (mkHttpError "Video generation was canceled" 500).
  repeat split; reflexivity.
Qed.

(** C6, amended: when the task was created and the first poll that does not
    find it pending says FAILED or CANCELED, the job stops polling there and
    throws an [HttpError] of status 500.  For FAILED its message is the
    reason given by the provider ([output.message], else the top-level
    [message]), or "Video generation failed" when there is none; for
    CANCELED it is always "Video generation was canceled". *)
Theorem provider_failure_ends_job
    calc dl net prompt p rid apiKey vp taskId (k : Z) r data :
  outcome (startJob calc dl net prompt p rid) = Returned (apiKey, vp, taskId) ->
  1 <= k <= POLL_MAX_ATTEMPTS ->
  (forall a, 1 <= a < k -> pendingAt net (pollUrlOf taskId) apiKey rid a) ->
  poll_answer net (pollUrlOf taskId) k = Responds r ->
  ok r = true ->
  resp_body r = Some data ->
  statusOf data = Some "FAILED" \/ statusOf data = Some "CANCELED" ->
  outcome (callWanAPI calc dl net prompt p rid)
    = Thrown (Http (mkHttpError
        (if Js.equals (statusOf data) "FAILED"
         then Js.or_default (reasonOf data) "Video generation failed"
         else "Video generation was canceled")
        500))
  /\ polls (trace (callWanAPI calc dl net prompt p rid)) = Z.to_nat k
  /\ (statusOf data = Some "FAILED" ->
      forall reason, reasonOf data = Some reason -> reason <> "" ->
      outcome (callWanAPI calc dl net prompt p rid)
        = Thrown (Http (mkHttpError reason 500))).
Proof.
  intros Hstart Hk Hpending Hanswer Hok Hbody Hstatus.
  set (error := if Js.equals (statusOf data) "FAILED"
                then Js.or_default (reasonOf data) "Video generation failed"
                else "Video generation was canceled").
  assert (Hfailed :
    outcome (pollTaskOnce net (pollUrlOf taskId) apiKey k rid)
      = Returned (Failed error)).
  { rewrite (pollTaskOnce_ok _ _ _ _ _ _ _ Hanswer Hok Hbody). subst error.
    destruct Hstatus as [-> | ->]; reflexivity. }
  rewrite (job_ends_at_poll _ _ _ _ _ _ _ _ _ k
             (Http (mkHttpError error 500)) Hstart Hk Hpending)
    by (right; exists error; split; [exact Hfailed | reflexivity]).
  cbn [outcome trace fst snd]. repeat split.
  - apply (polls_job_ends_at_poll _ _ _ _ _ _ _ _ _ k Hstart). lia.
  - intros Hf reason Hreason Hne. subst error. rewrite Hf, Hreason.
    destruct reason; [contradiction | reflexivity].
Qed.

Lemma provider_failure_ends_job_witness :
  outcome (startedJob failedUnsafe fiveSeconds)
    = Returned ("sk-test", prepareVideoParameters sampleResolution fiveSeconds,
                "task-1")
  /\ outcome (job failedUnsafe fiveSeconds)
     = Thrown (Http (mkHttpError "unsafe content" 500))
  /\ polls (trace (job failedUnsafe fiveSeconds)) = 2%nat.
Proof.
  assert (Hstart : outcome (startedJob failedUnsafe fiveSeconds)
            = Returned ("sk-test",
                        prepareVideoParameters sampleResolution fiveSeconds,
                        "task-1")) by reflexivity.
  split; [exact Hstart |].
  destruct (provider_failure_ends_job
              sampleResolution sampleImageDownload failedUnsafe
              "a red fox" fiveSeconds "req-1" "sk-test" _ "task-1" 2
              (mkResponse 200 "" (Some (bodyOf "FAILED" None (Some "unsafe content") None)))
              (bodyOf "FAILED" None (Some "unsafe content") None) Hstart)
    as (_ & Hpolls & Hreason).
  - unfold POLL_MAX_ATTEMPTS. lia.
  - intros a Ha. apply running_is_pending.
    destruct (Z.ltb_spec a 2); [reflexivity | lia].
  - reflexivity.
  - reflexivity.
  - reflexivity.
  - left. reflexivity.
  - split; [| exact Hpolls].
    apply Hreason; [reflexivity | reflexivity | discriminate].
Defined.

(** ** Transport errors of a poll *)

(** X11: a poll answered with a 4xx status ends the job on that attempt: the
    job throws an [HttpError] (of status 500) that quotes the status and the
    body, and sends no further poll. *)
Lemma poll_client_error_ends_job
    calc dl net prompt p rid apiKey vp taskId (k : Z) r :
  outcome (startJob calc dl net prompt p rid) = Returned (apiKey, vp, taskId) ->
  1 <= k <= POLL_MAX_ATTEMPTS ->
  (forall a, 1 <= a < k -> pendingAt net (pollUrlOf taskId) apiKey rid a) ->
  poll_answer net (pollUrlOf taskId) k = Responds r ->
  400 <= resp_status r < 500 ->
  outcome (callWanAPI calc dl net prompt p rid)
    = Thrown (Http (mkHttpError
        ("DashScope poll failed (" ++ Js.show (resp_status r) ++ "): "
           ++ resp_text r) 500))
  /\ polls (trace (callWanAPI calc dl net prompt p rid)) = Z.to_nat k.
Proof.
  intros Hstart Hk Hpending Hanswer Hstatus.
  assert (Hok : ok r = false) by (unfold ok; lia).
  pose proof (pollTaskOnce_not_ok net (pollUrlOf taskId) apiKey k rid r Hanswer Hok)
    as Hpoll.
  replace ((400 <=? resp_status r) && (resp_status r <? 500)) with true in Hpoll
    by lia.
  erewrite job_ends_at_poll; eauto.
  cbn [outcome trace fst snd]. split; [reflexivity |].
  apply (polls_job_ends_at_poll _ _ _ _ _ _ _ _ _ k Hstart). lia.
Qed.

(** A poll answered with a 5xx status leaves the task pending: the loop
    pauses and goes on with the next attempt. *)
Lemma poll_server_error_is_pending net url apiKey rid (a : Z) r :
  poll_answer net url a = Responds r ->
  500 <= resp_status r < 600 ->
  pendingAt net url apiKey rid a.
Proof.
  intros Hanswer Hstatus. unfold pendingAt.
  assert (Hok : ok r = false) by (unfold ok; lia).
  rewrite (pollTaskOnce_not_ok _ _ _ _ _ _ Hanswer Hok).
  replace ((400 <=? resp_status r) && (resp_status r <? 500)) with false by lia.
  reflexivity.
Qed.

(** X21: a poll whose request is rejected by the network ends the job: the
    rejection is not caught, neither by the attempt nor by the loop. *)
Lemma poll_network_error_ends_job
    calc dl net prompt p rid apiKey vp taskId (k : Z) reason :
  outcome (startJob calc dl net prompt p rid) = Returned (apiKey, vp, taskId) ->
  1 <= k <= POLL_MAX_ATTEMPTS ->
  (forall a, 1 <= a < k -> pendingAt net (pollUrlOf taskId) apiKey rid a) ->
  poll_answer net (pollUrlOf taskId) k = Rejects reason ->
  outcome (callWanAPI calc dl net prompt p rid) = Thrown (FetchRejected reason)
  /\ polls (trace (callWanAPI calc dl net prompt p rid)) = Z.to_nat k.
Proof.
  intros Hstart Hk Hpending Hanswer.
  erewrite job_ends_at_poll; eauto using pollTaskOnce_rejected.
  cbn [outcome trace fst snd]. split; [reflexivity |].
  apply (polls_job_ends_at_poll _ _ _ _ _ _ _ _ _ k Hstart). lia.
Qed.

(** A poll answered 503 costs one attempt; the next, answered 403, ends
    the job. *)
Example server_error_then_client_error :
  let net := provider (fun n => if n <? 2 then pollStatus 503 "busy"
                                else pollStatus 403 "denied") in
  outcome (job net fiveSeconds)
    = Thrown (Http (mkHttpError "DashScope poll failed (403): denied" 500))
  /\ polls (trace (job net fiveSeconds)) = 2%nat.
Proof. split; reflexivity. Qed.

(** C1, at a job whose first poll is rejected by the network: the attempt is
    not treated as pending.  The job ends with the rejection after this one
    poll, without a pause and without the second poll, which would have
    found the video. *)
Theorem poll_network_error_is_not_retried :
  poll_answer droppedConnection (pollUrlOf "task-1") 1 = Rejects "ECONNRESET"
  /\ ~ pendingAt droppedConnection (pollUrlOf "task-1") "sk-test" "req-1" 1
  /\ outcome (job droppedConnection fiveSeconds)
     = Thrown (FetchRejected "ECONNRESET")
  /\ polls (trace (job droppedConnection fiveSeconds)) = 1%nat
  /\ trace (job droppedConnection fiveSeconds)
     = (trace (startedJob droppedConnection fiveSeconds)
          ++ attemptEvents (pollUrlOf "task-1") "req-1" 1)%list.
Proof.
  split; [reflexivity |]. split; [discriminate |].
  split; [reflexivity |]. split; reflexivity.
Qed.

(** ** Progress *)

Lemma progressPercent_mono (a b : Z) :
  a <= b -> progressPercent a <= progressPercent b.
Proof.
  intros H. unfold progressPercent.
  assert (7 * a / 10 <= 7 * b / 10) by (apply Z.div_le_mono; lia).
  lia.
Qed.

Lemma progressPercent_bounds (a : Z) :
  0 <= a -> 50 <= progressPercent a <= 90.
Proof.
  intros H. unfold progressPercent.
  assert (0 <= 7 * a / 10) by (apply Z.div_pos; lia).
  lia.
Qed.

(** The percentages of a run of pending attempts lie between the first
    one and the one of the attempt that follows the run. *)
Lemma percents_pendingEvents_bounds url rid :
  forall (j : nat) (a : Z),
    Forall (fun pct => progressPercent a <= pct <= progressPercent (a + Z.of_nat j))
      (percents (pendingEvents url rid j a)).
Proof.
  induction j as [| j IH]; intros a; [constructor |].
  cbn [pendingEvents attemptEvents app percents]. constructor.
  - split; [lia | apply progressPercent_mono; lia].
  - eapply Forall_impl; [| apply (IH (a + 1))].
    cbv beta. intros pct [Hlo Hhi].
    replace (a + Z.of_nat (S j)) with (a + 1 + Z.of_nat j) by lia.
    pose proof (progressPercent_mono a (a + 1)). lia.
Qed.

Lemma percents_pendingEvents_sorted url rid :
  forall (j : nat) (a : Z),
    StronglySorted Z.le (percents (pendingEvents url rid j a)).
Proof.
  induction j as [| j IH]; intros a; [constructor |].
  cbn [pendingEvents attemptEvents app percents]. constructor; [apply IH |].
  eapply Forall_impl; [| apply (percents_pendingEvents_bounds url rid j (a + 1))].
  cbv beta. intros pct [Hlo _].
  pose proof (progressPercent_mono a (a + 1)). lia.
Qed.

(** Two sorted lists separated by a bound make a sorted list. *)
Lemma StronglySorted_app_bound (bound : Z) (s t : list Z) :
  StronglySorted Z.le s -> StronglySorted Z.le t ->
  Forall (fun x => x <= bound) s -> Forall (fun y => bound <= y) t ->
  StronglySorted Z.le (s ++ t).
Proof.
  intros Hs Ht Hlow Hhigh.
  induction Hs as [| x s Hs IH Hx]; [exact Ht |].
  cbn [app]. inversion Hlow as [| ? ? Hxb Hrest]; subst.
  constructor; [auto |].
  apply Forall_app. split; [exact Hx |].
  eapply Forall_impl; [| exact Hhigh]. cbv beta. intros y Hy. lia.
Qed.

(** The percentages of the polling phase of a job that returns: sorted,
    between 50 and 95, and below 95 up to the last one. *)
Lemma polling_percents_sorted url rid (j : nat) (u : string) :
  let shown := percents (pendingEvents url rid j 1
                           ++ attemptEvents url rid (1 + Z.of_nat j)
                           ++ downloadEvents u rid) in
  StronglySorted Z.le shown /\ Forall (fun pct => 50 <= pct) shown.
Proof.
  cbv zeta. rewrite !percents_app.
  cbn [percents attemptEvents downloadEvents].
  pose proof (percents_pendingEvents_bounds url rid j 1) as Hbounds.
  pose proof (progressPercent_bounds (1 + Z.of_nat j)) as Hk.
  pose proof (progressPercent_bounds 1) as H1.
  split.
  - apply (StronglySorted_app_bound (progressPercent (1 + Z.of_nat j))).
    + apply percents_pendingEvents_sorted.
    + repeat constructor; lia.
    + eapply Forall_impl; [| exact Hbounds]. cbv beta. lia.
    + repeat constructor; lia.
  - apply Forall_app. split.
    + eapply Forall_impl; [| exact Hbounds]. cbv beta. lia.
    + repeat constructor; lia.
Qed.

(** A loop that throws never reports completion. *)
Lemma pollLoop_thrown_percents net url key rid :
  forall (n : nat) (a : Z) e,
    outcome (pollLoop net url key rid n a) = Thrown e ->
    Forall (fun pct => pct < 95) (percents (trace (pollLoop net url key rid n a))).
Proof.
  assert (Hattempt : forall a,
            Forall (fun pct => pct < 95) (percents (attemptEvents url rid a))).
  { intros a. repeat constructor. unfold progressPercent. lia. }
  induction n as [| n IH]; intros a e H; [constructor |].
  rewrite pollLoop_step in *.
  destruct (outcome (pollTaskOnce net url key a rid)) as [[| u d | err] | e'];
    cbn [outcome trace fst snd] in *; rewrite ?percents_app;
    repeat (apply Forall_app; split); eauto; try (repeat constructor; lia).
  destruct (downloadVideo_cases net u rid) as [(r & _ & _ & Hrun) | (e' & Hrun)];
    rewrite Hrun in *; cbn [outcome trace fst snd] in *; [discriminate |].
  repeat constructor; lia.
Qed.

(** Completion is reported by no run of the job that throws. *)
Lemma completion_is_not_reported_by_a_failed_job calc dl net prompt p rid e :
  outcome (callWanAPI calc dl net prompt p rid) = Thrown e ->
  Forall (fun pct => pct < 95)
    (percents (trace (callWanAPI calc dl net prompt p rid))).
Proof.
  intros Hrun.
  assert (Hstarted :
    Forall (fun pct => pct < 95)
      (percents (trace (startJob calc dl net prompt p rid)))).
  { destruct (startJob_shape calc dl net prompt p rid)
      as [Hkey | u e' Hkey Hraw Hu Hdl | imageEvents dataUri e' Hkey Hstep
          | imageEvents dataUri apiKey taskId Hkey Hstep];
      cbn [trace fst percents startedEvent];
      rewrite ?percents_app;
      try rewrite (proj1 (ImageStep_percents _ _ _ _ Hstep));
      repeat constructor; lia. }
  destruct (outcome (startJob calc dl net prompt p rid))
    as [[[apiKey vp] taskId] | e'] eqn:Hstart.
  - rewrite (job_after_start _ _ _ _ _ _ _ _ _ Hstart) in *.
    cbn [outcome trace fst snd] in *. rewrite percents_app.
    apply Forall_app. split; [exact Hstarted |].
    destruct (outcome (pollWanTask net taskId apiKey rid)) as [res | e'] eqn:Hpoll;
      [discriminate |].
    unfold pollWanTask in *. eapply pollLoop_thrown_percents. exact Hpoll.
  - rewrite (job_start_failed _ _ _ _ _ _ _ Hstart). exact Hstarted.
Qed.

(** C7: in every run of the job that returns a result, the percentages given
    to the progress bar never decrease, and the last events of the run are
    the request for the video, answered successfully, followed by the
    report of completion (95); every percentage reported before is lower. *)
Theorem progress_never_decreases_and_completes_after_download
    calc dl net prompt p rid result :
  outcome (callWanAPI calc dl net prompt p rid) = Returned result ->
  Sorted Z.le (percents (trace (callWanAPI calc dl net prompt p rid)))
  /\ exists before u r,
       trace (callWanAPI calc dl net prompt p rid)
         = (before ++ [VideoGet u;
                       UpdateBar rid 95 "Success" "Video generation completed"])%list
       /\ video_answer net u = Responds r
       /\ ok r = true
       /\ buffer result = resp_body r
       /\ Forall (fun pct => pct < 95) (percents before).
Proof.
  intros Hrun.
  destruct (outcome (startJob calc dl net prompt p rid))
    as [[[apiKey vp] taskId] | e] eqn:Hstart;
    [| rewrite (job_start_failed _ _ _ _ _ _ _ Hstart) in Hrun; discriminate].
  rewrite (job_after_start _ _ _ _ _ _ _ _ _ Hstart) in *.
  cbn [outcome trace fst snd] in *.
  destruct (outcome (pollWanTask net taskId apiKey rid))
    as [[buf d] |] eqn:Hpoll; [| discriminate].
  injection Hrun as <-.
  unfold pollWanTask in *.
  destruct (pollLoop_returned_inv _ _ _ _ _ _ _ _ _
              (eq_trans (M_eta _) (f_equal _ Hpoll)))
    as (j & u & r & _ & _ & _ & Hvideo & Hok & Hbuf & Htrace).
  fold (pollUrlOf taskId) in *. cbn [trace fst] in Htrace. rewrite Htrace.
  destruct (startJob_created_observed _ _ _ _ _ _ _ _ _ Hstart) as [Hshown _].
  destruct (polling_percents_sorted (pollUrlOf taskId) rid j u)
    as [Hsorted Hlow].
  pose proof (percents_pendingEvents_bounds (pollUrlOf taskId) rid j 1) as Hbounds.
  pose proof (progressPercent_bounds (1 + Z.of_nat j)) as Hk.
  split.
  - apply StronglySorted_Sorted. rewrite percents_app, Hshown.
    apply (StronglySorted_app_bound 50); try assumption.
    + repeat constructor; lia.
    + repeat constructor; lia.
  - exists (trace (startJob calc dl net prompt p rid)
              ++ pendingEvents (pollUrlOf taskId) rid j 1
              ++ attemptEvents (pollUrlOf taskId) rid (1 + Z.of_nat j)
              ++ [UpdateBar rid 90 "Processing" "Downloading video..."])%list,
           u, r.
    repeat split; try assumption.
    + unfold downloadEvents. rewrite <- !app_assoc. reflexivity.
    + rewrite !percents_app, Hshown.
      cbn [percents attemptEvents].
      repeat (apply Forall_app; split); try (repeat constructor; lia).
      eapply Forall_impl; [| exact Hbounds]. cbv beta. lia.
Qed.

Lemma progress_never_decreases_and_completes_after_download_witness :
  (exists result, outcome (job sevenSeconds fiveSeconds) = Returned result)
  /\ Sorted Z.le (percents (trace (job sevenSeconds fiveSeconds)))
  /\ percents (trace (job sevenSeconds fiveSeconds))
     = [35; 45; 50; 50; 51; 52; 90; 95].
Proof.
  split; [eexists; reflexivity |].
  split; [| reflexivity].
  eapply (progress_never_decreases_and_completes_after_download
            sampleResolution sampleImageDownload sevenSeconds "a red fox"
            fiveSeconds "req-1").
  reflexivity.
Defined.

(** ** The result *)

Lemma num_or_nested (n : option Z) (d : Z) :
  Js.num_or (Some (Js.num_or n 0)) d = Js.num_or n d.
Proof.
  destruct n as [v |]; cbn; [| reflexivity].
  destruct (v =? 0) eqn:Hv; cbn; [reflexivity | rewrite Hv; reflexivity].
Qed.




(** ** The duration sent to the provider *)

Lemma submittedDurations_app (s t : list Event) :
  submittedDurations (s ++ t)
  = (submittedDurations s ++ submittedDurations t)%list.
Proof.
  induction s as [| ev s IH]; [reflexivity |].
  destruct ev; cbn; rewrite IH; reflexivity.
Qed.

Lemma submittedDurations_pollLoop net url key rid :
  forall (n : nat) (a : Z),
    submittedDurations (trace (pollLoop net url key rid n a)) = [].
Proof.
  induction n as [| n IH]; intros a; [reflexivity |].
  rewrite pollLoop_step.
  destruct (outcome (pollTaskOnce net url key a rid)) as [[| u d | err] | e];
    cbn [trace fst]; rewrite ?submittedDurations_app, ?IH; try reflexivity.
  destruct (downloadVideo_cases net u rid) as [(r & _ & _ & ->) | (e & ->)];
    reflexivity.
Qed.

Lemma submittedDurations_ImageStep dl raw imageEvents dataUri :
  ImageStep dl raw imageEvents dataUri -> submittedDurations imageEvents = [].
Proof. intros []; reflexivity. Qed.

(** The job sends at most one submission, and its duration is the one
    computed by [prepareVideoParameters]; it sends exactly one when the task
    is created. *)
Lemma submittedDurations_job calc dl net prompt p rid :
  let sent := submittedDurations (trace (callWanAPI calc dl net prompt p rid)) in
  (sent = [] \/ sent = [vp_durationSeconds (prepareVideoParameters calc p)])
  /\ (forall started,
        outcome (startJob calc dl net prompt p rid) = Returned started ->
        sent = [vp_durationSeconds (prepareVideoParameters calc p)]).
Proof.
  cbv zeta.
  assert (Hjob : exists rest,
            trace (callWanAPI calc dl net prompt p rid)
              = (trace (startJob calc dl net prompt p rid) ++ rest)%list
            /\ submittedDurations rest = []).
  { destruct (outcome (startJob calc dl net prompt p rid))
      as [[[apiKey vp] taskId] | e] eqn:Hstart.
    - rewrite (job_after_start _ _ _ _ _ _ _ _ _ Hstart).
      eexists. split; [reflexivity |]. apply submittedDurations_pollLoop.
    - rewrite (job_start_failed _ _ _ _ _ _ _ Hstart).
      exists []. rewrite app_nil_r. split; reflexivity. }
  destruct Hjob as (rest & -> & Hrest).
  rewrite submittedDurations_app, Hrest, app_nil_r.
  destruct (startJob_shape calc dl net prompt p rid)
    as [Hkey | u e Hkey Hraw Hu Hdl | imageEvents dataUri e Hkey Hstep
        | imageEvents dataUri apiKey taskId Hkey Hstep];
    cbn [trace outcome fst snd submittedDurations startedEvent];
    rewrite ?submittedDurations_app, ?(submittedDurations_ImageStep _ _ _ _ Hstep);
    cbn [submittedDurations submittingEvent submittedEvent app requestBodyOf
         param_duration];
    (split; [auto | intros started H; first [discriminate H | reflexivity]]).
Qed.

(** A request behaves as the same request with the duration that
    [prepareVideoParameters] computes for it. *)
Lemma job_with_prepared_duration calc dl net prompt p rid :
  callWanAPI calc dl net prompt p rid
  = callWanAPI calc dl net prompt
      (withDuration p (Some (vp_durationSeconds (prepareVideoParameters calc p))))
      rid.
Proof.
  assert (Hsame :
    prepareVideoParameters calc
      (withDuration p (Some (vp_durationSeconds (prepareVideoParameters calc p))))
    = prepareVideoParameters calc p).
  { unfold prepareVideoParameters, withDuration.
    cbn [duration width height aspectRatio audio vp_durationSeconds].
    set (raw := Js.num_or (duration p) DEFAULT_DURATION_SECONDS).
    assert (Hclamped :
      Js.num_or
        (Some (Z.max MIN_DURATION_SECONDS (Z.min MAX_DURATION_SECONDS raw)))
        DEFAULT_DURATION_SECONDS
      = Z.max MIN_DURATION_SECONDS (Z.min MAX_DURATION_SECONDS raw)).
    { unfold Js.num_or, MIN_DURATION_SECONDS, MAX_DURATION_SECONDS.
      destruct (Z.eqb_spec (Z.max 2 (Z.min 15 raw)) 0); [lia | reflexivity]. }
    rewrite Hclamped. f_equal.
    unfold MIN_DURATION_SECONDS, MAX_DURATION_SECONDS. lia. }
  unfold callWanAPI, callWanAlibabaAPI. rewrite Hsame. reflexivity.
Qed.

(** C3, as stated, fails at 0, a value below the minimum: it is replaced by
    the default before the clamp, so 5 is submitted and not 2. *)
Lemma zero_duration_is_not_raised_to_the_minimum :
  duration zeroSeconds = Some 0
  /\ 0 < MIN_DURATION_SECONDS
  /\ vp_durationSeconds (prepareVideoParameters sampleResolution zeroSeconds) = 5
  /\ submittedDurations (trace (job alwaysRunning zeroSeconds)) = [5]
  /\ 5 <> MIN_DURATION_SECONDS.
Proof. repeat split; discriminate. Qed.

(** C3, amended: for every request with a duration that is present and not
    0, the submitted duration is the requested one clamped into
    [MIN_DURATION_SECONDS, MAX_DURATION_SECONDS] = [2, 15]: below the range
    it is 2, above it is 15, inside it is unchanged; a duration of 1 is
    submitted as 2.  No such value is rejected: the job runs exactly as it
    does for the clamped value. *)
Theorem nonzero_duration_is_clamped calc dl net prompt p rid (d : Z) :
  duration p = Some d ->
  d <> 0 ->
  let submitted := vp_durationSeconds (prepareVideoParameters calc p) in
  MIN_DURATION_SECONDS = 2 /\ MAX_DURATION_SECONDS = 15
  /\ (d < MIN_DURATION_SECONDS -> submitted = MIN_DURATION_SECONDS)
  /\ (MAX_DURATION_SECONDS < d -> submitted = MAX_DURATION_SECONDS)
  /\ (MIN_DURATION_SECONDS <= d <= MAX_DURATION_SECONDS -> submitted = d)
  /\ (d = 1 -> submitted = 2)
  /\ Forall (fun sent => sent = submitted)
       (submittedDurations (trace (callWanAPI calc dl net prompt p rid)))
  /\ (forall started,
        outcome (startJob calc dl net prompt p rid) = Returned started ->
        submittedDurations (trace (callWanAPI calc dl net prompt p rid))
          = [submitted])
  /\ callWanAPI calc dl net prompt p rid
     = callWanAPI calc dl net prompt (withDuration p (Some submitted)) rid.
Proof.
  intros Hd Hnz submitted.
  assert (Hsubmitted :
    submitted = Z.max MIN_DURATION_SECONDS (Z.min MAX_DURATION_SECONDS d)).
  { subst submitted. unfold prepareVideoParameters, Js.num_or.
    cbn [vp_durationSeconds]. rewrite Hd.
    destruct (Z.eqb_spec d 0); [contradiction | reflexivity]. }
  destruct (submittedDurations_job calc dl net prompt p rid) as [Hsent Hone].
  fold submitted in Hsent, Hone.
  unfold MIN_DURATION_SECONDS, MAX_DURATION_SECONDS in *.
  repeat split; try lia.
  - destruct Hsent as [-> | ->]; repeat constructor.
  - exact Hone.
  - apply job_with_prepared_duration.
Qed.

Lemma nonzero_duration_is_clamped_witness :
  duration oneSecond = Some 1
  /\ 1 <> 0
  /\ vp_durationSeconds (prepareVideoParameters sampleResolution oneSecond) = 2
  /\ submittedDurations (trace (job alwaysRunning oneSecond)) = [2].
Proof.
  assert (Hd : duration oneSecond = Some 1) by reflexivity.
  assert (Hnz : 1 <> 0) by lia.
  split; [exact Hd |]. split; [exact Hnz |].
  destruct (nonzero_duration_is_clamped
              sampleResolution sampleImageDownload alwaysRunning "a red fox"
              oneSecond "req-1" 1 Hd Hnz)
    as (_ & _ & _ & _ & _ & Hone & _ & Hsent & _).
  split; [exact (Hone eq_refl) |].
  exact (Hsent _ eq_refl).
Defined.

(** C10: for every request whose duration is absent or 0, the default of 5
    seconds is taken before the clamp into [2, 15], which leaves it as it
    is: the submitted duration is 5, not the minimum 2. *)
Theorem absent_or_zero_duration_becomes_default calc dl net prompt p rid :
  duration p = None \/ duration p = Some 0 ->
  let submitted := vp_durationSeconds (prepareVideoParameters calc p) in
  submitted
    = Z.max MIN_DURATION_SECONDS
        (Z.min MAX_DURATION_SECONDS DEFAULT_DURATION_SECONDS)
  /\ submitted = DEFAULT_DURATION_SECONDS
  /\ DEFAULT_DURATION_SECONDS = 5
  /\ submitted <> MIN_DURATION_SECONDS
  /\ Forall (fun sent => sent = 5)
       (submittedDurations (trace (callWanAPI calc dl net prompt p rid)))
  /\ (forall started,
        outcome (startJob calc dl net prompt p rid) = Returned started ->
        submittedDurations (trace (callWanAPI calc dl net prompt p rid)) = [5]).
Proof.
  intros Hd submitted.
  assert (Hsubmitted : submitted = 5).
  { subst submitted. unfold prepareVideoParameters.
    cbn [vp_durationSeconds]. destruct Hd as [-> | ->]; reflexivity. }
  destruct (submittedDurations_job calc dl net prompt p rid) as [Hsent Hone].
  fold submitted in Hsent, Hone. rewrite Hsubmitted in *.
  repeat split; try reflexivity.
  - discriminate.
  - destruct Hsent as [-> | ->]; repeat constructor.
  - exact Hone.
Qed.

Lemma absent_or_zero_duration_becomes_default_witness :
  (duration unspecifiedDuration = None \/ duration unspecifiedDuration = Some 0)
  /\ (duration zeroSeconds = None \/ duration zeroSeconds = Some 0)
  /\ vp_durationSeconds (prepareVideoParameters sampleResolution unspecifiedDuration) = 5
  /\ submittedDurations (trace (job alwaysRunning zeroSeconds)) = [5].
Proof.
  assert (Habsent : duration unspecifiedDuration = None
                    \/ duration unspecifiedDuration = Some 0)
    by (left; reflexivity).
  assert (Hzero : duration zeroSeconds = None \/ duration zeroSeconds = Some 0)
    by (right; reflexivity).
  split; [exact Habsent |]. split; [exact Hzero |].
  split.
  - destruct (absent_or_zero_duration_becomes_default
                sampleResolution sampleImageDownload alwaysRunning "a red fox"
                unspecifiedDuration "req-1" Habsent)
      as (_ & Hdefault & _).
    exact Hdefault.
  - destruct (absent_or_zero_duration_becomes_default
                sampleResolution sampleImageDownload alwaysRunning "a red fox"
                zeroSeconds "req-1" Hzero)
      as (_ & _ & _ & _ & _ & Hsent).
    exact (Hsent _ eq_refl).
Defined.

(** ** The source image *)

(** A job with a usable first image and an API key: the image is downloaded
    first; the error of a failed download ends the job, and after a
    successful one the submission is sent with the data URI. *)
Lemma job_with_first_image calc dl net prompt p rid u :
  Js.truthy (DASHSCOPE_API_KEY net) = true ->
  extractFirstImage (image p) = Some u ->
  Js.truthy (Some u) = true ->
  match dl u with
  | Thrown e =>
      callWanAPI calc dl net prompt p rid
      = ([startedEvent rid (Some u); ImageDownload u], Thrown e)
  | Returned (base64, mime) =>
      exists rest,
        trace (callWanAPI calc dl net prompt p rid)
        = startedEvent rid (Some u) :: ImageDownload u :: submittingEvent rid
            :: SubmitPost submitUrl
                 (requestBodyOf prompt (Some (dataUriOf base64 mime))
                    (prepareVideoParameters calc p))
            :: rest
  end.
Proof.
  intros Hkey Hraw Hu.
  assert (Hjob : exists rest,
            trace (callWanAPI calc dl net prompt p rid)
              = (trace (startJob calc dl net prompt p rid) ++ rest)%list
            /\ forall e,
                 outcome (startJob calc dl net prompt p rid) = Thrown e ->
                 callWanAPI calc dl net prompt p rid
                 = (trace (startJob calc dl net prompt p rid), Thrown e)).
  { destruct (outcome (startJob calc dl net prompt p rid))
      as [[[apiKey vp] taskId] | e] eqn:Hstart.
    - rewrite (job_after_start _ _ _ _ _ _ _ _ _ Hstart).
      eexists. split; [reflexivity | discriminate].
    - exists []. rewrite app_nil_r. split.
      + rewrite (job_start_failed _ _ _ _ _ _ _ Hstart). reflexivity.
      + intros e' [= <-]. now apply job_start_failed. }
  destruct Hjob as (rest & Htrace & Hfailed).
  assert (Hstep : forall imageEvents dataUri,
            ImageStep dl (extractFirstImage (image p)) imageEvents dataUri ->
            exists base64 mime,
              dl u = Returned (base64, mime)
              /\ imageEvents = [ImageDownload u]
              /\ dataUri = Some (dataUriOf base64 mime)).
  { intros imageEvents dataUri Hs. rewrite Hraw in Hs.
    destruct Hs as [Hno | u' base64 mime Hsome _ Hdl]; [congruence |].
    injection Hsome as <-. eauto. }
  destruct (startJob_shape calc dl net prompt p rid)
    as [Hno | u' e Hkey' Hraw' Hu' Hdl | imageEvents dataUri e Hkey' Hs
        | imageEvents dataUri apiKey taskId Hkey' Hs];
    cbn [trace outcome fst snd] in Htrace, Hfailed.
  - congruence.
  - assert (u' = u) as -> by congruence. rewrite Hdl. now apply Hfailed.
  - destruct (Hstep _ _ Hs) as (base64 & mime & -> & -> & ->).
    rewrite Htrace, Hraw. eexists. reflexivity.
  - destruct (Hstep _ _ Hs) as (base64 & mime & -> & -> & ->).
    rewrite Htrace, Hraw. eexists. reflexivity.
Qed.

Lemma truthy_nonempty (s : string) : s <> "" -> Js.truthy (Some s) = true.
Proof. destruct s; [contradiction | reflexivity]. Qed.

(** C9, as stated, fails for a list whose first entry is the empty string:
    the request carries a source image, the second entry, and the job
    retrieves nothing; what it submits names the text-to-video model and
    has no image. *)
Lemma empty_first_image_is_not_retrieved :
  image emptyFirstImage = ManyImages [""; "https://img.example/b.png"]
  /\ imagesRequested (trace (job sevenSeconds emptyFirstImage)) = []
  /\ submitted (trace (job sevenSeconds emptyFirstImage))
     = [(submitUrl, textRequest emptyFirstImage)]
  /\ model (textRequest emptyFirstImage) = WAN_T2V_MODEL
  /\ input_img_url (textRequest emptyFirstImage) = None
  /\ exists result, outcome (job sevenSeconds emptyFirstImage) = Returned result.
Proof. repeat split. eexists. reflexivity. Qed.

(** C9, amended: for every request whose first source image, the single
    value or the first entry of the list, is a non-empty string, only that
    image is used: the job runs exactly as for the request with that single
    image.  Without an API key the job ends at once.  With one, the image
    is retrieved right after the first progress report, before anything is
    sent to the provider; when the retrieval throws, the job ends with that
    error, and when it succeeds the submission that follows carries the
    image re-encoded as the data URI "data:<mime>;base64,<base64>" and
    names the image-to-video model. *)
Theorem first_image_is_downloaded_and_embedded
    calc dl net prompt p rid u others :
  u <> "" ->
  image p = OneImage u \/ image p = ManyImages (u :: others) ->
  extractFirstImage (image p) = Some u
  /\ callWanAPI calc dl net prompt p rid
     = callWanAPI calc dl net prompt (withImage p (OneImage u)) rid
  /\ if Js.truthy (DASHSCOPE_API_KEY net) then
       match dl u with
       | Thrown e =>
           callWanAPI calc dl net prompt p rid
           = ([startedEvent rid (Some u); ImageDownload u], Thrown e)
       | Returned (base64, mime) =>
           exists rest body,
             trace (callWanAPI calc dl net prompt p rid)
             = startedEvent rid (Some u) :: ImageDownload u
                 :: submittingEvent rid :: SubmitPost submitUrl body :: rest
             /\ input_img_url body = Some ("data:" ++ mime ++ ";base64," ++ base64)
             /\ model body = WAN_I2V_MODEL
       end
     else
       callWanAPI calc dl net prompt p rid = ([], Thrown missingApiKey).
Proof.
  intros Hne Himage.
  pose proof (truthy_nonempty u Hne) as Hu.
  assert (Hraw : extractFirstImage (image p) = Some u).
  { destruct Himage as [-> | ->]; cbn [extractFirstImage hd_error];
      [rewrite Hu |]; reflexivity. }
  split; [exact Hraw |]. split.
  - assert (Hraw' : extractFirstImage (image (withImage p (OneImage u))) = Some u)
      by (cbn [image withImage extractFirstImage]; rewrite Hu; reflexivity).
    unfold callWanAPI, callWanAlibabaAPI.
    change (prepareVideoParameters calc (withImage p (OneImage u)))
      with (prepareVideoParameters calc p).
    rewrite Hraw, Hraw'. reflexivity.
  - destruct (Js.truthy (DASHSCOPE_API_KEY net)) eqn:Hkey.
    + pose proof (job_with_first_image calc dl net prompt p rid u Hkey Hraw Hu)
        as Hjob.
      destruct (dl u) as [[base64 mime] | e]; [| exact Hjob].
      destruct Hjob as (rest & Htrace).
      exists rest. eexists. split; [exact Htrace |].
      cbn [requestBodyOf input_img_url model dataUriOf Js.truthy].
      unfold dataUriOf. cbn [append]. split; reflexivity.
    + unfold callWanAPI, callWanAlibabaAPI.
      destruct (DASHSCOPE_API_KEY net) as [apiKey |]; [| reflexivity].
      rewrite Hkey. reflexivity.
Qed.

Lemma first_image_is_downloaded_and_embedded_witness :
  "https://img.example/a.png" <> ""
  /\ (image twoImages = OneImage "https://img.example/a.png"
      \/ image twoImages
         = ManyImages ["https://img.example/a.png"; "https://img.example/b.png"])
  /\ job sevenSeconds twoImages
     = job sevenSeconds (withImage twoImages (OneImage "https://img.example/a.png"))
  /\ extractFirstImage (image twoImages) = Some "https://img.example/a.png".
Proof.
  assert (Hne : "https://img.example/a.png" <> "") by discriminate.
  assert (Himage :
    image twoImages = OneImage "https://img.example/a.png"
    \/ image twoImages
       = ManyImages ["https://img.example/a.png"; "https://img.example/b.png"])
    by (right; reflexivity).
  split; [exact Hne |]. split; [exact Himage |].
  destruct (first_image_is_downloaded_and_embedded
              sampleResolution sampleImageDownload sevenSeconds "a red fox"
              twoImages "req-1" _ _ Hne Himage)
    as (Hraw & Hsame & _).
  split; [exact Hsame | exact Hraw].
Defined.

(** * Further properties of the job *)

(** ** The shape of a run *)

Lemma finishJob_trace net apiKey rid vp body :
  exists rest,
    trace (finishJob net apiKey rid vp body)
    = submittingEvent rid :: SubmitPost submitUrl body :: rest.
Proof.
  unfold finishJob. rewrite bind_unfold.
  destruct (createDashScopeTask_cases net apiKey body rid)
    as [(e & ->) | (taskId & ->)]; cbn [trace outcome fst snd app];
    eexists; reflexivity.
Qed.

(** The three ways a run of the job can go: no API key; the image download
    throws; the request is built and submitted. *)
Lemma job_cases calc dl net prompt p rid :
  (Js.truthy (DASHSCOPE_API_KEY net) = false
   /\ callWanAPI calc dl net prompt p rid = ([], Thrown missingApiKey))
  \/ (exists u e,
        Js.truthy (DASHSCOPE_API_KEY net) = true
        /\ extractFirstImage (image p) = Some u
        /\ Js.truthy (Some u) = true
        /\ dl u = Thrown e
        /\ callWanAPI calc dl net prompt p rid
           = ([startedEvent rid (Some u); ImageDownload u], Thrown e))
  \/ (exists apiKey imageEvents dataUri,
        DASHSCOPE_API_KEY net = Some apiKey
        /\ Js.truthy (Some apiKey) = true
        /\ ImageStep dl (extractFirstImage (image p)) imageEvents dataUri
        /\ callWanAPI calc dl net prompt p rid
           = ((startedEvent rid (extractFirstImage (image p)) :: imageEvents
                 ++ trace (finishJob net apiKey rid (prepareVideoParameters calc p)
                             (requestBodyOf prompt dataUri
                                (prepareVideoParameters calc p))))%list,
              outcome (finishJob net apiKey rid (prepareVideoParameters calc p)
                         (requestBodyOf prompt dataUri
                            (prepareVideoParameters calc p))))).
Proof.
  unfold callWanAPI, callWanAlibabaAPI.
  destruct (DASHSCOPE_API_KEY net) as [apiKey |] eqn:Hkey;
    [| left; split; reflexivity].
  destruct (Js.truthy (Some apiKey)) eqn:Htruthy;
    [| left; split; reflexivity].
  right. cbv zeta. fold (startedEvent rid (extractFirstImage (image p))).
  assert (Hfinish :
    forall imageEvents dataUri,
      buildDashScopeRequest prompt dataUri (prepareVideoParameters calc p)
        = ret (requestBodyOf prompt dataUri (prepareVideoParameters calc p)) ->
      bind (emit (startedEvent rid (extractFirstImage (image p))))
        (fun _ =>
           bind (imageEvents, Returned dataUri)
             (fun imageDataUri =>
                requestBody <-
                  buildDashScopeRequest prompt imageDataUri
                    (prepareVideoParameters calc p) ;;
                taskId <- createDashScopeTask net apiKey requestBody rid ;;
                result <- pollWanTask net taskId apiKey rid ;;
                ret (createVideoResult (fst result)
                       (prepareVideoParameters calc p) (Some (snd result)))))
      = ((startedEvent rid (extractFirstImage (image p)) :: imageEvents
            ++ trace (finishJob net apiKey rid (prepareVideoParameters calc p)
                        (requestBodyOf prompt dataUri
                           (prepareVideoParameters calc p))))%list,
         outcome (finishJob net apiKey rid (prepareVideoParameters calc p)
                    (requestBodyOf prompt dataUri
                       (prepareVideoParameters calc p))))).
  { intros imageEvents dataUri Hbuild.
    rewrite (bind_returned (emit _) _ tt eq_refl).
    rewrite (bind_returned (imageEvents, Returned dataUri) _ dataUri eq_refl).
    rewrite Hbuild, bind_ret_l. fold (finishJob net apiKey rid
      (prepareVideoParameters calc p)
      (requestBodyOf prompt dataUri (prepareVideoParameters calc p))).
    reflexivity. }
  destruct (extractFirstImage (image p)) as [u |] eqn:Hraw.
  - destruct (Js.truthy (Some u)) eqn:Hu.
    + destruct (dl u) as [[base64 mime] | e] eqn:Hdl.
      * right. exists apiKey, [ImageDownload u], (Some (dataUriOf base64 mime)).
        repeat split; try assumption.
        -- now apply (DownloadedStep dl (Some u) u base64 mime).
        -- rewrite <- Hfinish
             by (unfold dataUriOf; apply buildDashScopeRequest_data).
           reflexivity.
      * left. exists u, e. repeat split; reflexivity || assumption.
    + right. exists apiKey, [], None. repeat split; try assumption.
      * now apply NoImageStep.
      * rewrite <- Hfinish by apply buildDashScopeRequest_none. reflexivity.
  - right. exists apiKey, [], None. repeat split; try assumption.
    + now apply NoImageStep.
    + rewrite <- Hfinish by apply buildDashScopeRequest_none. reflexivity.
Qed.

Lemma submitted_app (s t : list Event) :
  submitted (s ++ t) = (submitted s ++ submitted t)%list.
Proof.
  induction s as [| ev s IH]; [reflexivity |].
  destruct ev; cbn; rewrite IH; reflexivity.
Qed.

Lemma imagesRequested_app (s t : list Event) :
  imagesRequested (s ++ t) = (imagesRequested s ++ imagesRequested t)%list.
Proof.
  induction s as [| ev s IH]; [reflexivity |].
  destruct ev; cbn; rewrite IH; reflexivity.
Qed.

Lemma videosRequested_app (s t : list Event) :
  videosRequested (s ++ t) = (videosRequested s ++ videosRequested t)%list.
Proof.
  induction s as [| ev s IH]; [reflexivity |].
  destruct ev; cbn; rewrite IH; reflexivity.
Qed.

Lemma polled_app (s t : list Event) :
  polled (s ++ t) = (polled s ++ polled t)%list.
Proof.
  induction s as [| ev s IH]; [reflexivity |].
  destruct ev; cbn; rewrite IH; reflexivity.
Qed.

Lemma pauses_app (s t : list Event) :
  pauses (s ++ t) = (pauses s ++ pauses t)%list.
Proof.
  induction s as [| ev s IH]; [reflexivity |].
  destruct ev; cbn; rewrite IH; reflexivity.
Qed.

Lemma polls_polled (t : list Event) : polls t = List.length (polled t).
Proof.
  induction t as [| ev t IH]; [reflexivity |].
  destruct ev; cbn; rewrite ?IH; reflexivity.
Qed.

Lemma In_submitted (t : list Event) url body :
  In (SubmitPost url body) t <-> In (url, body) (submitted t).
Proof.
  induction t as [| ev t IH]; [reflexivity |].
  destruct ev; cbn [In submitted]; rewrite IH;
    try (split; [intros [H | H]; [discriminate H | exact H] | auto]).
  split; (intros [H | H]; [left; congruence | right; exact H]).
Qed.

Lemma In_polled (t : list Event) url :
  In (PollGet url) t <-> In url (polled t).
Proof.
  induction t as [| ev t IH]; [reflexivity |].
  destruct ev; cbn [In polled]; rewrite IH;
    try (split; [intros [H | H]; [discriminate H | exact H] | auto]).
  split; (intros [H | H]; [left; congruence | right; exact H]).
Qed.

Lemma pausedFor_repeat (ms : Z) (n : nat) :
  fold_right Z.add 0 (repeat ms n) = Z.of_nat n * ms.
Proof. induction n as [| n IH]; cbn [repeat fold_right]; lia. Qed.

(** ** The submission *)

Lemma createDashScopeTask_rejected net key body rid reason :
  submit_answer net body = Rejects reason ->
  createDashScopeTask net key body rid
  = ([submittingEvent rid; SubmitPost submitUrl body],
     Thrown (FetchRejected reason)).
Proof.
  intros H. unfold createDashScopeTask, awaitFetch. rewrite H. reflexivity.
Qed.

Lemma createDashScopeTask_not_ok net key body rid r :
  submit_answer net body = Responds r ->
  ok r = false ->
  createDashScopeTask net key body rid
  = ([submittingEvent rid; SubmitPost submitUrl body],
     Thrown (Http (mkHttpError
       ("DashScope API request failed: " ++ resp_text r) (resp_status r)))).
Proof.
  intros H Hok. unfold createDashScopeTask, awaitFetch. rewrite H.
  step_effects. rewrite Hok. reflexivity.
Qed.

Lemma createDashScopeTask_not_json net key body rid r :
  submit_answer net body = Responds r ->
  ok r = true ->
  resp_body r = None ->
  createDashScopeTask net key body rid
  = ([submittingEvent rid; SubmitPost submitUrl body], Thrown JsonRejected).
Proof.
  intros H Hok Hbody. unfold createDashScopeTask, awaitFetch, awaitJson.
  rewrite H. step_effects. rewrite Hok, Hbody. reflexivity.
Qed.

(** The decision taken on the body of a successful answer. *)
Lemma createDashScopeTask_ok net key body rid r data :
  submit_answer net body = Responds r ->
  ok r = true ->
  resp_body r = Some data ->
  createDashScopeTask net key body rid
  = if Js.truthy (created_code data) then
      ([submittingEvent rid; SubmitPost submitUrl body],
       Thrown (Http (mkHttpError
         ("DashScope API error: "
            ++ Js.or_default (created_message data)
                 (Js.or_default (created_code data) "")) 400)))
    else if Js.truthy (created_task_id data) then
      ([submittingEvent rid; SubmitPost submitUrl body; submittedEvent rid],
       Returned (Js.or_default (created_task_id data) ""))
    else
      ([submittingEvent rid; SubmitPost submitUrl body],
       Thrown (Http (mkHttpError "DashScope API did not return task ID" 500))).
Proof.
  intros H Hok Hbody. unfold createDashScopeTask, awaitFetch, awaitJson.
  rewrite H. step_effects. rewrite Hok, Hbody. step_effects.
  destruct (Js.truthy (created_code data)); [reflexivity |].
  destruct (created_task_id data) as [taskId |]; [| reflexivity].
  destruct taskId; reflexivity.
Qed.

Lemma submitted_pollLoop net url key rid :
  forall (n : nat) (a : Z),
    submitted (trace (pollLoop net url key rid n a)) = []
    /\ imagesRequested (trace (pollLoop net url key rid n a)) = [].
Proof.
  induction n as [| n IH]; intros a; [split; reflexivity |].
  rewrite pollLoop_step.
  destruct (outcome (pollTaskOnce net url key a rid)) as [[| u d | err] | e];
    cbn [trace fst]; rewrite ?submitted_app, ?imagesRequested_app;
    try (split; reflexivity).
  - destruct (IH (a + 1)) as [-> ->]. split; reflexivity.
  - destruct (downloadVideo_cases net u rid) as [(r & _ & _ & ->) | (e & ->)];
      split; reflexivity.
Qed.

(** What [finishJob] does, by the outcome of the submission. *)
Lemma finishJob_unfold net apiKey rid vp body :
  finishJob net apiKey rid vp body
  = match outcome (createDashScopeTask net apiKey body rid) with
    | Returned taskId =>
        (([submittingEvent rid; SubmitPost submitUrl body; submittedEvent rid]
            ++ trace (pollWanTask net taskId apiKey rid))%list,
         match outcome (pollWanTask net taskId apiKey rid) with
         | Returned result =>
             Returned (createVideoResult (fst result) vp (Some (snd result)))
         | Thrown e => Thrown e
         end)
    | Thrown e => ([submittingEvent rid; SubmitPost submitUrl body], Thrown e)
    end.
Proof.
  unfold finishJob. rewrite bind_unfold.
  destruct (createDashScopeTask_cases net apiKey body rid)
    as [(e & ->) | (taskId & ->)]; cbn [trace outcome fst snd]; [reflexivity |].
  rewrite bind_unfold.
  destruct (outcome (pollWanTask net taskId apiKey rid)); step_effects;
    [rewrite app_nil_r |]; reflexivity.
Qed.

Lemma submitted_finishJob net apiKey rid vp body :
  submitted (trace (finishJob net apiKey rid vp body)) = [(submitUrl, body)].
Proof.
  rewrite finishJob_unfold.
  destruct (outcome (createDashScopeTask net apiKey body rid)) as [taskId | e];
    cbn [trace fst]; [| reflexivity].
  rewrite submitted_app. unfold pollWanTask.
  rewrite (proj1 (submitted_pollLoop _ _ _ _ _ _)). reflexivity.
Qed.

Lemma submitted_ImageStep dl raw imageEvents dataUri :
  ImageStep dl raw imageEvents dataUri -> submitted imageEvents = [].
Proof. intros []; reflexivity. Qed.

(** A run that sent a submission: the request was built from the request
    of the caller, and the run is the start of the job followed by
    [finishJob] on that request. *)
Lemma job_of_submission calc dl net prompt p rid url body :
  In (SubmitPost url body) (trace (callWanAPI calc dl net prompt p rid)) ->
  exists apiKey imageEvents dataUri,
    DASHSCOPE_API_KEY net = Some apiKey
    /\ Js.truthy (Some apiKey) = true
    /\ ImageStep dl (extractFirstImage (image p)) imageEvents dataUri
    /\ url = submitUrl
    /\ body = requestBodyOf prompt dataUri (prepareVideoParameters calc p)
    /\ callWanAPI calc dl net prompt p rid
       = ((startedEvent rid (extractFirstImage (image p)) :: imageEvents
             ++ trace (finishJob net apiKey rid (prepareVideoParameters calc p) body))%list,
          outcome (finishJob net apiKey rid (prepareVideoParameters calc p) body)).
Proof.
  intros Hin.
  destruct (job_cases calc dl net prompt p rid)
    as [(_ & Hrun) | [(u & e & _ & _ & _ & _ & Hrun)
        | (apiKey & imageEvents & dataUri & Hkey & Htruthy & Hstep & Hrun)]];
    rewrite Hrun in Hin; cbn [trace fst] in Hin.
  - destruct Hin.
  - destruct Hin as [H | [H | []]]; discriminate H.
  - apply In_submitted in Hin. cbn [submitted startedEvent] in Hin.
    rewrite submitted_app, (submitted_ImageStep _ _ _ _ Hstep),
      submitted_finishJob in Hin.
    destruct Hin as [[= <- <-] | []].
    exists apiKey, imageEvents, dataUri. repeat split; assumption.
Qed.

(** A run whose submission throws ends there: nothing is polled, and the
    progress stays at 45. *)
Lemma job_ends_at_submission calc dl net prompt p rid url body e :
  In (SubmitPost url body) (trace (callWanAPI calc dl net prompt p rid)) ->
  (forall apiKey, outcome (createDashScopeTask net apiKey body rid) = Thrown e) ->
  outcome (callWanAPI calc dl net prompt p rid) = Thrown e
  /\ polled (trace (callWanAPI calc dl net prompt p rid)) = []
  /\ percents (trace (callWanAPI calc dl net prompt p rid)) = [35; 45].
Proof.
  intros Hin Hthrown.
  destruct (job_of_submission _ _ _ _ _ _ _ _ Hin)
    as (apiKey & imageEvents & dataUri & _ & _ & Hstep & _ & _ & ->).
  rewrite finishJob_unfold, (Hthrown apiKey). cbn [trace outcome fst snd].
  split; [reflexivity |].
  destruct Hstep; split; reflexivity.
Qed.

(** X1: without an API key, or with an empty one, the job throws the
    [HttpError] of status 500 at once: no progress is reported and nothing
    is sent.  With a key, every run starts by reporting 35. *)
Theorem missing_api_key_ends_job_at_once calc dl net prompt p rid :
  if Js.truthy (DASHSCOPE_API_KEY net) then
    exists rest,
      trace (callWanAPI calc dl net prompt p rid)
      = startedEvent rid (extractFirstImage (image p)) :: rest
  else
    callWanAPI calc dl net prompt p rid
    = ([], Thrown (Http (mkHttpError
         "DASHSCOPE_API_KEY environment variable is required for Wan model" 500))).
Proof.
  destruct (job_cases calc dl net prompt p rid)
    as [(Hkey & Hrun) | [(u & e & Hkey & Hraw & _ & _ & Hrun)
        | (apiKey & imageEvents & dataUri & Hkey & Htruthy & _ & Hrun)]].
  - rewrite Hkey. exact Hrun.
  - rewrite Hkey, Hrun, Hraw. eexists. reflexivity.
  - rewrite Hkey, Htruthy, Hrun. eexists. reflexivity.
Qed.

(** When the submission returns a task id. *)
Lemma createDashScopeTask_returned_iff net apiKey body rid taskId :
  outcome (createDashScopeTask net apiKey body rid) = Returned taskId
  <-> exists r data,
        submit_answer net body = Responds r
        /\ ok r = true
        /\ resp_body r = Some data
        /\ Js.truthy (created_code data) = false
        /\ created_task_id data = Some taskId
        /\ taskId <> "".
Proof.
  split.
  - intros H.
    destruct (submit_answer net body) as [reason | r] eqn:Ha;
      [rewrite (createDashScopeTask_rejected _ _ _ _ _ Ha) in H; discriminate |].
    destruct (ok r) eqn:Hok;
      [| rewrite (createDashScopeTask_not_ok _ _ _ _ _ Ha Hok) in H; discriminate].
    destruct (resp_body r) as [data |] eqn:Hbody;
      [| rewrite (createDashScopeTask_not_json _ _ _ _ _ Ha Hok Hbody) in H;
         discriminate].
    rewrite (createDashScopeTask_ok _ _ _ _ _ _ Ha Hok Hbody) in H.
    exists r, data.
    destruct (Js.truthy (created_code data)); [discriminate |].
    destruct (created_task_id data) as [[| c id] |]; try discriminate.
    injection H as <-. repeat split; congruence.
  - intros (r & data & Ha & Hok & Hbody & Hcode & Hid & Hne).
    rewrite (createDashScopeTask_ok _ _ _ _ _ _ Ha Hok Hbody), Hcode, Hid.
    destruct taskId; [contradiction | reflexivity].
Qed.

(** X2: the submission returns a task id exactly when the answer has an ok
    status and a JSON body with no error code and a non-empty task id; the
    id returned is that one, and only then is the creation of the task
    reported (50) after the start of the submission (45). *)
Theorem task_is_created_iff net apiKey body rid taskId :
  (outcome (createDashScopeTask net apiKey body rid) = Returned taskId
   <-> exists r data,
         submit_answer net body = Responds r
         /\ ok r = true
         /\ resp_body r = Some data
         /\ Js.truthy (created_code data) = false
         /\ created_task_id data = Some taskId
         /\ taskId <> "")
  /\ percents (trace (createDashScopeTask net apiKey body rid))
     = match outcome (createDashScopeTask net apiKey body rid) with
       | Returned _ => [45; 50]
       | Thrown _ => [45]
       end.
Proof.
  split; [apply createDashScopeTask_returned_iff |].
  destruct (createDashScopeTask_cases net apiKey body rid)
    as [(e & ->) | (created & ->)]; reflexivity.
Qed.

(** X3: when the submission is answered with a status that is not ok, the
    job throws an [HttpError] with that very status and with the body of
    the answer in its message; nothing is polled and the progress stays at
    45. *)
Theorem submission_http_error_ends_job calc dl net prompt p rid url body r :
  In (SubmitPost url body) (trace (callWanAPI calc dl net prompt p rid)) ->
  submit_answer net body = Responds r ->
  ok r = false ->
  outcome (callWanAPI calc dl net prompt p rid)
    = Thrown (Http (mkHttpError
        ("DashScope API request failed: " ++ resp_text r) (resp_status r)))
  /\ polled (trace (callWanAPI calc dl net prompt p rid)) = []
  /\ percents (trace (callWanAPI calc dl net prompt p rid)) = [35; 45].
Proof.
  intros Hin Ha Hok. apply (job_ends_at_submission _ _ _ _ _ _ _ _ _ Hin).
  intros apiKey. rewrite (createDashScopeTask_not_ok _ _ _ _ _ Ha Hok).
  reflexivity.
Qed.

Lemma submission_http_error_ends_job_witness :
  In (SubmitPost submitUrl (textRequest fiveSeconds))
     (trace (job rateLimited fiveSeconds))
  /\ outcome (job rateLimited fiveSeconds)
     = Thrown (Http (mkHttpError "DashScope API request failed: rate limited" 429))
  /\ polled (trace (job rateLimited fiveSeconds)) = [].
Proof.
  assert (Hin : In (SubmitPost submitUrl (textRequest fiveSeconds))
                   (trace (job rateLimited fiveSeconds)))
    by (do 2 right; left; reflexivity).
  split; [exact Hin |].
  destruct (submission_http_error_ends_job
              sampleResolution sampleImageDownload rateLimited "a red fox"
              fiveSeconds "req-1" submitUrl (textRequest fiveSeconds)
              (mkResponse 429 "rate limited" None) Hin eq_refl eq_refl)
    as (Hout & Hpolled & _).
  split; [exact Hout | exact Hpolled].
Defined.

(** X4: when the submission is answered ok with an error code in the body,
    the job throws an [HttpError] of status 400 whose message is the
    message of the body, or the code when there is no message, even when
    the body also carries a task id; nothing is polled. *)
Theorem submission_error_code_ends_job
    calc dl net prompt p rid url body r data code :
  In (SubmitPost url body) (trace (callWanAPI calc dl net prompt p rid)) ->
  submit_answer net body = Responds r ->
  ok r = true ->
  resp_body r = Some data ->
  created_code data = Some code ->
  code <> "" ->
  outcome (callWanAPI calc dl net prompt p rid)
    = Thrown (Http (mkHttpError
        ("DashScope API error: " ++ Js.or_default (created_message data) code)
        400))
  /\ polled (trace (callWanAPI calc dl net prompt p rid)) = []
  /\ percents (trace (callWanAPI calc dl net prompt p rid)) = [35; 45].
Proof.
  intros Hin Ha Hok Hbody Hcode Hne.
  apply (job_ends_at_submission _ _ _ _ _ _ _ _ _ Hin).
  intros apiKey. rewrite (createDashScopeTask_ok _ _ _ _ _ _ Ha Hok Hbody), Hcode.
  destruct code; [contradiction | reflexivity].
Qed.

Lemma submission_error_code_ends_job_witness :
  In (SubmitPost submitUrl (textRequest fiveSeconds))
     (trace (job invalidParameter fiveSeconds))
  /\ outcome (job invalidParameter fiveSeconds)
     = Thrown (Http (mkHttpError "DashScope API error: prompt is too long" 400))
  /\ polled (trace (job invalidParameter fiveSeconds)) = [].
Proof.
  assert (Hin : In (SubmitPost submitUrl (textRequest fiveSeconds))
                   (trace (job invalidParameter fiveSeconds)))
    by (do 2 right; left; reflexivity).
  split; [exact Hin |].
  destruct (submission_error_code_ends_job
              sampleResolution sampleImageDownload invalidParameter "a red fox"
              fiveSeconds "req-1" submitUrl (textRequest fiveSeconds)
              _ _ "InvalidParameter" Hin eq_refl eq_refl eq_refl eq_refl)
    as (Hout & Hpolled & _); [discriminate |].
  split; [exact Hout | exact Hpolled].
Defined.

(** X5: when the submission is answered ok with no error code and no task
    id, or an empty one, the job throws the [HttpError] "DashScope API did
    not return task ID" of status 500; nothing is polled. *)
Theorem submission_without_task_id_ends_job
    calc dl net prompt p rid url body r data :
  In (SubmitPost url body) (trace (callWanAPI calc dl net prompt p rid)) ->
  submit_answer net body = Responds r ->
  ok r = true ->
  resp_body r = Some data ->
  Js.truthy (created_code data) = false ->
  Js.truthy (created_task_id data) = false ->
  outcome (callWanAPI calc dl net prompt p rid)
    = Thrown (Http (mkHttpError "DashScope API did not return task ID" 500))
  /\ polled (trace (callWanAPI calc dl net prompt p rid)) = []
  /\ percents (trace (callWanAPI calc dl net prompt p rid)) = [35; 45].
Proof.
  intros Hin Ha Hok Hbody Hcode Hid.
  apply (job_ends_at_submission _ _ _ _ _ _ _ _ _ Hin).
  intros apiKey.
  rewrite (createDashScopeTask_ok _ _ _ _ _ _ Ha Hok Hbody), Hcode, Hid.
  reflexivity.
Qed.

Lemma submission_without_task_id_ends_job_witness :
  In (SubmitPost submitUrl (textRequest fiveSeconds))
     (trace (job withoutTaskId fiveSeconds))
  /\ outcome (job withoutTaskId fiveSeconds)
     = Thrown (Http (mkHttpError "DashScope API did not return task ID" 500))
  /\ polled (trace (job withoutTaskId fiveSeconds)) = [].
Proof.
  assert (Hin : In (SubmitPost submitUrl (textRequest fiveSeconds))
                   (trace (job withoutTaskId fiveSeconds)))
    by (do 2 right; left; reflexivity).
  split; [exact Hin |].
  destruct (submission_without_task_id_ends_job
              sampleResolution sampleImageDownload withoutTaskId "a red fox"
              fiveSeconds "req-1" submitUrl (textRequest fiveSeconds)
              _ _ Hin eq_refl eq_refl eq_refl eq_refl eq_refl)
    as (Hout & Hpolled & _).
  split; [exact Hout | exact Hpolled].
Defined.

(** ** The polling *)

Lemma polled_pendingEvents url rid :
  forall (n : nat) (a : Z),
    polled (pendingEvents url rid n a) = repeat url n
    /\ pauses (pendingEvents url rid n a) = repeat POLL_DELAY_MS n
    /\ videosRequested (pendingEvents url rid n a) = [].
Proof.
  induction n as [| n IH]; intros a; [repeat split |].
  destruct (IH (a + 1)) as (Hp & Hs & Hv).
  cbn [pendingEvents attemptEvents app polled pauses videosRequested repeat].
  rewrite Hp, Hs, Hv. repeat split.
Qed.

(** The loop polls one URL, at most once per iteration, pauses for
    [POLL_DELAY_MS] and never more often than it polls, and requests at
    most one video. *)
Lemma pollLoop_observed net url key rid :
  forall (n : nat) (a : Z),
    let t := trace (pollLoop net url key rid n a) in
    Forall (eq url) (polled t)
    /\ (List.length (polled t) <= n)%nat
    /\ Forall (eq POLL_DELAY_MS) (pauses t)
    /\ (List.length (pauses t) <= List.length (polled t))%nat
    /\ (List.length (videosRequested t) <= 1)%nat.
Proof.
  induction n as [| n IH]; intros a; cbv zeta.
  - cbn. repeat split; auto.
  - rewrite pollLoop_step.
    destruct (outcome (pollTaskOnce net url key a rid)) as [[| u d | err] | e];
      cbn [trace fst].
    + destruct (IH (a + 1)) as (Hp & Hn & Hs & Hle & Hv).
      rewrite polled_app, pauses_app, videosRequested_app.
      cbn [attemptEvents app polled pauses videosRequested List.length].
      repeat split; auto; lia.
    + destruct (downloadVideo_cases net u rid) as [(r & _ & _ & ->) | (e & ->)];
        cbn; repeat split; auto; lia.
    + cbn. repeat split; auto; lia.
    + cbn. repeat split; auto; lia.
Qed.

(** The start of a job whose task is created polls nothing, pauses for
    nothing and requests no video. *)
Lemma startJob_created_quiet calc dl net prompt p rid apiKey vp taskId :
  outcome (startJob calc dl net prompt p rid) = Returned (apiKey, vp, taskId) ->
  polled (trace (startJob calc dl net prompt p rid)) = []
  /\ pauses (trace (startJob calc dl net prompt p rid)) = []
  /\ videosRequested (trace (startJob calc dl net prompt p rid)) = [].
Proof.
  intros H.
  destruct (startJob_created_inv _ _ _ _ _ _ _ _ _ H)
    as (_ & _ & imageEvents & dataUri & Hstep & ->).
  destruct Hstep; repeat split.
Qed.

(** One iteration at an attempt that does not find the task pending. *)
Lemma pollLoop_terminal net url key rid (a : Z) :
  ~ pendingAt net url key rid a ->
  exists tail,
    trace (pollLoop net url key rid 1 a)
      = (attemptEvents url rid a ++ tail)%list
    /\ polled tail = []
    /\ pauses tail = []
    /\ (List.length (videosRequested tail) <= 1)%nat.
Proof.
  intros Hterminal. rewrite pollLoop_step. unfold pendingAt in Hterminal.
  destruct (outcome (pollTaskOnce net url key a rid)) as [[| u d | err] | e];
    cbn [trace fst]; [contradiction | | |].
  - eexists. split; [reflexivity |].
    destruct (downloadVideo_cases net u rid) as [(r & _ & _ & ->) | (e & ->)];
      cbn; repeat split; lia.
  - exists []. rewrite app_nil_r. cbn. repeat split; lia.
  - exists []. rewrite app_nil_r. cbn. repeat split; lia.
Qed.

(** X6: every poll of a job goes to the URL of the task that its own
    submission created: a job polls only after a submission that was
    answered ok with a task id, and only [<base>/tasks/<that id>]. *)
Theorem polls_go_to_the_created_task calc dl net prompt p rid url :
  In (PollGet url) (trace (callWanAPI calc dl net prompt p rid)) ->
  exists body r data taskId,
    In (SubmitPost submitUrl body) (trace (callWanAPI calc dl net prompt p rid))
    /\ submit_answer net body = Responds r
    /\ ok r = true
    /\ resp_body r = Some data
    /\ created_task_id data = Some taskId
    /\ url = DASHSCOPE_API_BASE ++ "/tasks/" ++ taskId.
Proof.
  intros Hin.
  destruct (job_cases calc dl net prompt p rid)
    as [(_ & Hrun) | [(u & e & _ & _ & _ & _ & Hrun)
        | (apiKey & imageEvents & dataUri & Hkey & Htruthy & Hstep & Hrun)]];
    rewrite Hrun in *; cbn [trace fst] in *.
  - destruct Hin.
  - destruct Hin as [H | [H | []]]; discriminate H.
  - set (body := requestBodyOf prompt dataUri (prepareVideoParameters calc p)) in *.
    assert (Hsent :
      In (SubmitPost submitUrl body)
         (startedEvent rid (extractFirstImage (image p)) :: imageEvents
            ++ trace (finishJob net apiKey rid (prepareVideoParameters calc p) body))).
    { apply In_submitted. cbn [submitted startedEvent].
      rewrite submitted_app, (submitted_ImageStep _ _ _ _ Hstep),
        submitted_finishJob. left. reflexivity. }
    apply In_polled in Hin. cbn [polled startedEvent] in Hin.
    rewrite polled_app in Hin.
    replace (polled imageEvents) with (@nil string) in Hin
      by (destruct Hstep; reflexivity).
    cbn [app] in Hin. rewrite finishJob_unfold in Hin.
    destruct (outcome (createDashScopeTask net apiKey body rid))
      as [taskId | e] eqn:Hcreated; cbn [trace fst polled app] in Hin;
      [| destruct Hin].
    destruct (proj1 (createDashScopeTask_returned_iff net apiKey body rid taskId) Hcreated)
      as (r & data & Ha & Hok & Hbody & _ & Hid & _).
    exists body, r, data, taskId. repeat split; try assumption.
    unfold pollWanTask in Hin.
    destruct (pollLoop_observed net (DASHSCOPE_API_BASE ++ "/tasks/" ++ taskId)
                apiKey rid (Z.to_nat POLL_MAX_ATTEMPTS) 1) as (Hall & _).
    rewrite Forall_forall in Hall. symmetry. now apply Hall.
Qed.

Lemma polls_go_to_the_created_task_witness :
  In (PollGet (pollUrlOf "task-1")) (trace (job sevenSeconds fiveSeconds))
  /\ exists body r data taskId,
       In (SubmitPost submitUrl body) (trace (job sevenSeconds fiveSeconds))
       /\ submit_answer sevenSeconds body = Responds r
       /\ ok r = true
       /\ resp_body r = Some data
       /\ created_task_id data = Some taskId
       /\ pollUrlOf "task-1" = DASHSCOPE_API_BASE ++ "/tasks/" ++ taskId.
Proof.
  assert (Hin : In (PollGet (pollUrlOf "task-1"))
                   (trace (job sevenSeconds fiveSeconds)))
    by (do 5 right; left; reflexivity).
  split; [exact Hin |].
  exact (polls_go_to_the_created_task
           sampleResolution sampleImageDownload sevenSeconds "a red fox"
           fiveSeconds "req-1" (pollUrlOf "task-1") Hin).
Defined.

Lemma equals_iff (a : option string) (lit : string) :
  Js.equals a lit = true <-> a = Some lit.
Proof.
  destruct a as [s |]; cbn [Js.equals]; [| split; discriminate].
  rewrite String.eqb_eq. split; congruence.
Qed.

Lemma equals_false_iff (a : option string) (lit : string) :
  Js.equals a lit = false <-> a <> Some lit.
Proof.
  rewrite <- equals_iff. destruct (Js.equals a lit); split; congruence.
Qed.

(** When an attempt leaves the task pending. *)
Lemma pendingAt_iff net url key rid (a : Z) :
  pendingAt net url key rid a
  <-> exists r,
        poll_answer net url a = Responds r
        /\ ((ok r = false /\ (resp_status r < 400 \/ 500 <= resp_status r))
            \/ (ok r = true
                /\ exists data,
                     resp_body r = Some data
                     /\ statusOf data <> Some "SUCCEEDED"
                     /\ statusOf data <> Some "FAILED"
                     /\ statusOf data <> Some "CANCELED")).
Proof.
  unfold pendingAt. split.
  - intros H.
    destruct (poll_answer net url a) as [reason | r] eqn:Ha;
      [rewrite (pollTaskOnce_rejected _ _ _ _ _ _ Ha) in H; discriminate |].
    exists r. split; [reflexivity |].
    destruct (ok r) eqn:Hok.
    + right. split; [reflexivity |].
      destruct (resp_body r) as [data |] eqn:Hbody;
        [| rewrite (pollTaskOnce_not_json _ _ _ _ _ _ Ha Hok Hbody) in H;
           discriminate].
      rewrite (pollTaskOnce_ok _ _ _ _ _ _ _ Ha Hok Hbody) in H.
      exists data. split; [reflexivity |].
      rewrite <- !equals_false_iff.
      destruct (Js.equals (statusOf data) "SUCCEEDED").
      * destruct (videoUrlOf data) as [u |]; [| discriminate].
        destruct (Js.truthy (Some u)); discriminate.
      * destruct (Js.equals (statusOf data) "FAILED"); [discriminate |].
        destruct (Js.equals (statusOf data) "CANCELED"); [discriminate |].
        repeat split.
    + left. split; [reflexivity |].
      rewrite (pollTaskOnce_not_ok _ _ _ _ _ _ Ha Hok) in H.
      destruct ((400 <=? resp_status r) && (resp_status r <? 500)) eqn:Hrange;
        [discriminate | lia].
  - intros (r & Ha & [(Hok & Hstatus) | (Hok & data & Hbody & Hs & Hf & Hc)]).
    + rewrite (pollTaskOnce_not_ok _ _ _ _ _ _ Ha Hok).
      replace ((400 <=? resp_status r) && (resp_status r <? 500)) with false
        by lia.
      reflexivity.
    + rewrite (pollTaskOnce_ok _ _ _ _ _ _ _ Ha Hok Hbody).
      apply equals_false_iff in Hs, Hf, Hc. rewrite Hs, Hf, Hc. reflexivity.
Qed.

(** X9: for a poll whose answer has an ASCII status word, or none, an
    attempt leaves the task pending exactly when its request is answered,
    and the answer either has a status that is neither ok nor 4xx (a 5xx,
    but also a 1xx or a 3xx), or is ok with a JSON body, of the shape of
    [WanTaskResult], whose status word, in upper case, is none of
    SUCCEEDED, FAILED and CANCELED (a missing status word included). *)
Theorem attempt_is_pending_iff net url key rid (a : Z) :
  statusIsAscii (poll_answer net url a) = true ->
  (pendingAt net url key rid a
   <-> exists r,
         poll_answer net url a = Responds r
         /\ ((ok r = false /\ (resp_status r < 400 \/ 500 <= resp_status r))
             \/ (ok r = true
                 /\ exists data,
                      resp_body r = Some data
                      /\ statusOf data <> Some "SUCCEEDED"
                      /\ statusOf data <> Some "FAILED"
                      /\ statusOf data <> Some "CANCELED"))).
Proof. intros _. apply pendingAt_iff. Qed.

Lemma attempt_is_pending_iff_witness :
  statusIsAscii (poll_answer sevenSeconds (pollUrlOf "task-1") 1) = true
  /\ pendingAt sevenSeconds (pollUrlOf "task-1") "sk-test" "req-1" 1
  /\ statusIsAscii (poll_answer sevenSeconds (pollUrlOf "task-1") 3) = true
  /\ ~ pendingAt sevenSeconds (pollUrlOf "task-1") "sk-test" "req-1" 3.
Proof.
  assert (H1 : statusIsAscii (poll_answer sevenSeconds (pollUrlOf "task-1") 1)
               = true) by reflexivity.
  assert (H3 : statusIsAscii (poll_answer sevenSeconds (pollUrlOf "task-1") 3)
               = true) by reflexivity.
  split; [exact H1 |]. split; [| split; [exact H3 |]].
  - apply (attempt_is_pending_iff sevenSeconds (pollUrlOf "task-1")
             "sk-test" "req-1" 1 H1).
    eexists. split; [reflexivity |]. right. split; [reflexivity |].
    eexists. split; [reflexivity |]. repeat split; discriminate.
  - intros Hpending.
    apply (attempt_is_pending_iff sevenSeconds (pollUrlOf "task-1")
             "sk-test" "req-1" 3 H3) in Hpending.
    destruct Hpending as (r & [= <-] & [(Hok & _) | (_ & data & [= <-] & Hs & _)]).
    + discriminate Hok.
    + apply Hs. reflexivity.
Defined.

(** X10: a poll answered ok with a body that is not JSON ends the job: the
    rejection of [response.json()] is not caught, the attempt is not taken
    as pending, and no further poll is sent. *)
Theorem poll_body_not_json_ends_job
    calc dl net prompt p rid apiKey vp taskId (k : Z) r :
  outcome (startJob calc dl net prompt p rid) = Returned (apiKey, vp, taskId) ->
  1 <= k <= POLL_MAX_ATTEMPTS ->
  (forall a, 1 <= a < k -> pendingAt net (pollUrlOf taskId) apiKey rid a) ->
  poll_answer net (pollUrlOf taskId) k = Responds r ->
  ok r = true ->
  resp_body r = None ->
  outcome (callWanAPI calc dl net prompt p rid) = Thrown JsonRejected
  /\ polls (trace (callWanAPI calc dl net prompt p rid)) = Z.to_nat k.
Proof.
  intros Hstart Hk Hpending Ha Hok Hbody.
  erewrite job_ends_at_poll; eauto using pollTaskOnce_not_json.
  cbn [outcome trace fst snd]. split; [reflexivity |].
  apply (polls_job_ends_at_poll _ _ _ _ _ _ _ _ _ k Hstart). lia.
Qed.

Lemma poll_body_not_json_ends_job_witness :
  outcome (startedJob notJson fiveSeconds)
    = Returned ("sk-test", prepareVideoParameters sampleResolution fiveSeconds,
                "task-1")
  /\ outcome (job notJson fiveSeconds) = Thrown JsonRejected
  /\ polls (trace (job notJson fiveSeconds)) = 2%nat.
Proof.
  assert (Hstart : outcome (startedJob notJson fiveSeconds)
            = Returned ("sk-test",
                        prepareVideoParameters sampleResolution fiveSeconds,
                        "task-1")) by reflexivity.
  split; [exact Hstart |].
  apply (poll_body_not_json_ends_job
           sampleResolution sampleImageDownload notJson "a red fox"
           fiveSeconds "req-1" "sk-test" _ "task-1" 2
           (mkResponse 200 "<html>" None) Hstart).
  - unfold POLL_MAX_ATTEMPTS. lia.
  - intros a Ha. apply running_is_pending.
    destruct (Z.ltb_spec a 2); [reflexivity | lia].
  - reflexivity.
  - reflexivity.
  - reflexivity.
Defined.

(** A witness of [poll_client_error_ends_job]: after a poll answered 503,
    which costs one attempt, the poll answered 403 ends the job. *)
Lemma poll_client_error_ends_job_witness :
  outcome (startedJob forbidden fiveSeconds)
    = Returned ("sk-test", prepareVideoParameters sampleResolution fiveSeconds,
                "task-1")
  /\ outcome (job forbidden fiveSeconds)
     = Thrown (Http (mkHttpError "DashScope poll failed (403): denied" 500))
  /\ polls (trace (job forbidden fiveSeconds)) = 2%nat.
Proof.
  assert (Hstart : outcome (startedJob forbidden fiveSeconds)
            = Returned ("sk-test",
                        prepareVideoParameters sampleResolution fiveSeconds,
                        "task-1")) by reflexivity.
  split; [exact Hstart |].
  apply (poll_client_error_ends_job
           sampleResolution sampleImageDownload forbidden "a red fox"
           fiveSeconds "req-1" "sk-test" _ "task-1" 2
           (mkResponse 403 "denied" None) Hstart).
  - unfold POLL_MAX_ATTEMPTS. lia.
  - intros a Ha.
    apply (poll_server_error_is_pending forbidden _ _ _ a
             (mkResponse 503 "busy" None)).
    + cbn. destruct (Z.ltb_spec a 2); [reflexivity | lia].
    + cbn. lia.
  - reflexivity.
  - cbn. lia.
Defined.

(** X18: the job polls up to the first attempt that does not find the task
    pending, and no further: when that is attempt [k], the job has sent
    [k] polls, all to the URL of its task, and has paused [k - 1] times,
    [POLL_DELAY_MS] each. *)
Theorem polling_stops_at_the_first_terminal_attempt
    calc dl net prompt p rid apiKey vp taskId (k : Z) :
  outcome (startJob calc dl net prompt p rid) = Returned (apiKey, vp, taskId) ->
  1 <= k <= POLL_MAX_ATTEMPTS ->
  (forall a, 1 <= a < k -> pendingAt net (pollUrlOf taskId) apiKey rid a) ->
  ~ pendingAt net (pollUrlOf taskId) apiKey rid k ->
  polled (trace (callWanAPI calc dl net prompt p rid))
    = repeat (pollUrlOf taskId) (Z.to_nat k)
  /\ pauses (trace (callWanAPI calc dl net prompt p rid))
     = repeat POLL_DELAY_MS (Z.to_nat (k - 1))
  /\ (List.length (videosRequested (trace (callWanAPI calc dl net prompt p rid)))
      <= 1)%nat.
Proof.
  intros Hstart Hk Hpending Hterminal.
  rewrite (job_after_start _ _ _ _ _ _ _ _ _ Hstart).
  rewrite (pollWanTask_first_terminal net taskId apiKey rid k Hk Hpending Hterminal).
  destruct (startJob_created_quiet _ _ _ _ _ _ _ _ _ Hstart) as (Hp & Hs & Hv).
  destruct (pollLoop_terminal _ _ _ _ _ Hterminal)
    as (tail & -> & Htp & Hts & Htv).
  destruct (polled_pendingEvents (pollUrlOf taskId) rid (Z.to_nat (k - 1)) 1)
    as (Hpp & Hps & Hpv).
  cbn [trace fst].
  rewrite !polled_app, !pauses_app, !videosRequested_app,
    Hp, Hs, Hv, Hpp, Hps, Hpv, Htp, Hts.
  cbn [attemptEvents polled pauses videosRequested app].
  rewrite !app_nil_r. repeat split; [| exact Htv].
  replace (Z.to_nat k) with (Z.to_nat (k - 1) + 1)%nat by lia.
  rewrite repeat_app. reflexivity.
Qed.

Lemma polling_stops_at_the_first_terminal_attempt_witness :
  outcome (startedJob failedUnsafe fiveSeconds)
    = Returned ("sk-test", prepareVideoParameters sampleResolution fiveSeconds,
                "task-1")
  /\ ~ pendingAt failedUnsafe (pollUrlOf "task-1") "sk-test" "req-1" 2
  /\ polled (trace (job failedUnsafe fiveSeconds))
     = [pollUrlOf "task-1"; pollUrlOf "task-1"]
  /\ pauses (trace (job failedUnsafe fiveSeconds)) = [5000].
Proof.
  assert (Hstart : outcome (startedJob failedUnsafe fiveSeconds)
            = Returned ("sk-test",
                        prepareVideoParameters sampleResolution fiveSeconds,
                        "task-1")) by reflexivity.
  assert (Hterminal :
    ~ pendingAt failedUnsafe (pollUrlOf "task-1") "sk-test" "req-1" 2)
    by discriminate.
  split; [exact Hstart |]. split; [exact Hterminal |].
  destruct (polling_stops_at_the_first_terminal_attempt
              sampleResolution sampleImageDownload failedUnsafe "a red fox"
              fiveSeconds "req-1" "sk-test" _ "task-1" 2 Hstart)
    as (Hpolled & Hpauses & _); try assumption.
  - unfold POLL_MAX_ATTEMPTS. lia.
  - intros a Ha. apply running_is_pending.
    destruct (Z.ltb_spec a 2); [reflexivity | lia].
  - split; [exact Hpolled | exact Hpauses].
Defined.

(** ** The download and the result *)

(** An attempt answered ok with the status SUCCEEDED and a video URL
    reports the completion, with the duration of the body, or 0. *)
Lemma pollTaskOnce_succeeded net url key rid (a : Z) r data u :
  poll_answer net url a = Responds r ->
  ok r = true ->
  resp_body r = Some data ->
  statusOf data = Some "SUCCEEDED" ->
  videoUrlOf data = Some u ->
  u <> "" ->
  outcome (pollTaskOnce net url key a rid)
  = Returned (Completed u (Js.num_or (video_duration data) 0)).
Proof.
  intros Ha Hok Hbody Hstatus Hurl Hne.
  rewrite (pollTaskOnce_ok _ _ _ _ _ _ _ Ha Hok Hbody), Hstatus, Hurl.
  rewrite (truthy_nonempty u Hne). reflexivity.
Qed.

(** A job whose [k]-th poll is the first not to find the task pending, and
    finds it completed: the video is downloaded next, and the job ends as
    the download does. *)
Lemma job_completes_at_poll calc dl net prompt p rid apiKey vp taskId (k : Z) u d :
  outcome (startJob calc dl net prompt p rid) = Returned (apiKey, vp, taskId) ->
  1 <= k <= POLL_MAX_ATTEMPTS ->
  (forall a, 1 <= a < k -> pendingAt net (pollUrlOf taskId) apiKey rid a) ->
  outcome (pollTaskOnce net (pollUrlOf taskId) apiKey k rid)
    = Returned (Completed u d) ->
  callWanAPI calc dl net prompt p rid =
  ((trace (startJob calc dl net prompt p rid)
      ++ pendingEvents (pollUrlOf taskId) rid (Z.to_nat (k - 1)) 1
      ++ attemptEvents (pollUrlOf taskId) rid k
      ++ trace (downloadVideo net u rid))%list,
   match outcome (downloadVideo net u rid) with
   | Returned buf => Returned (createVideoResult buf vp (Some d))
   | Thrown e => Thrown e
   end).
Proof.
  intros Hstart Hk Hpending Hdone.
  rewrite (job_after_start _ _ _ _ _ _ _ _ _ Hstart).
  rewrite (pollWanTask_first_terminal net taskId apiKey rid k Hk Hpending)
    by (unfold pendingAt; rewrite Hdone; discriminate).
  rewrite pollLoop_step, Hdone. cbn [trace outcome fst snd].
  destruct (outcome (downloadVideo net u rid)); reflexivity.
Qed.

(** X7: when the poll that finds the task succeeded is followed by a video
    download answered with a status that is not ok, the job throws the
    [HttpError] "Failed to download video: <status>" of status 500.  The
    video is requested once, nothing is polled again, and no percentage
    above 90 is reported. *)
Theorem failed_download_ends_job
    calc dl net prompt p rid apiKey vp taskId (k : Z) r data u v :
  outcome (startJob calc dl net prompt p rid) = Returned (apiKey, vp, taskId) ->
  1 <= k <= POLL_MAX_ATTEMPTS ->
  (forall a, 1 <= a < k -> pendingAt net (pollUrlOf taskId) apiKey rid a) ->
  poll_answer net (pollUrlOf taskId) k = Responds r ->
  ok r = true ->
  resp_body r = Some data ->
  statusOf data = Some "SUCCEEDED" ->
  videoUrlOf data = Some u ->
  u <> "" ->
  video_answer net u = Responds v ->
  ok v = false ->
  outcome (callWanAPI calc dl net prompt p rid)
    = Thrown (Http (mkHttpError
        ("Failed to download video: " ++ Js.show (resp_status v)) 500))
  /\ videosRequested (trace (callWanAPI calc dl net prompt p rid)) = [u]
  /\ polls (trace (callWanAPI calc dl net prompt p rid)) = Z.to_nat k
  /\ Forall (fun pct => pct <= 90)
       (percents (trace (callWanAPI calc dl net prompt p rid))).
Proof.
  intros Hstart Hk Hpending Ha Hok Hbody Hstatus Hurl Hne Hv Hvok.
  rewrite (job_completes_at_poll _ _ _ _ _ _ _ _ _ k u _ Hstart Hk Hpending
             (pollTaskOnce_succeeded _ _ _ _ _ _ _ _ Ha Hok Hbody Hstatus Hurl Hne)).
  assert (Hdownload :
    downloadVideo net u rid
    = ([UpdateBar rid 90 "Processing" "Downloading video..."; VideoGet u],
       Thrown (Http (mkHttpError
         ("Failed to download video: " ++ Js.show (resp_status v)) 500)))).
  { unfold downloadVideo, awaitFetch. rewrite Hv. step_effects.
    rewrite Hvok. reflexivity. }
  rewrite Hdownload. cbn [trace outcome fst snd].
  destruct (startJob_created_quiet _ _ _ _ _ _ _ _ _ Hstart) as (_ & _ & Hquiet).
  destruct (startJob_created_observed _ _ _ _ _ _ _ _ _ Hstart) as [Hshown Hn].
  destruct (polled_pendingEvents (pollUrlOf taskId) rid (Z.to_nat (k - 1)) 1)
    as (_ & _ & Hpv).
  pose proof (percents_pendingEvents_bounds (pollUrlOf taskId) rid
                (Z.to_nat (k - 1)) 1) as Hbounds.
  pose proof (progressPercent_bounds k) as Hpk.
  pose proof (progressPercent_bounds (1 + Z.of_nat (Z.to_nat (k - 1)))) as Hpj.
  repeat split.
  - rewrite !videosRequested_app, Hquiet, Hpv. reflexivity.
  - rewrite !polls_app, Hn, polls_pendingEvents. cbn [polls attemptEvents]. lia.
  - rewrite !percents_app, Hshown. cbn [percents attemptEvents].
    repeat (apply Forall_app; split); try (repeat constructor; lia).
    eapply Forall_impl; [| exact Hbounds]. cbv beta. lia.
Qed.

Lemma failed_download_ends_job_witness :
  outcome (startedJob videoGone fiveSeconds)
    = Returned ("sk-test", prepareVideoParameters sampleResolution fiveSeconds,
                "task-1")
  /\ outcome (job videoGone fiveSeconds)
     = Thrown (Http (mkHttpError "Failed to download video: 404" 500))
  /\ videosRequested (trace (job videoGone fiveSeconds))
     = ["https://cdn.example/v.mp4"]
  /\ polls (trace (job videoGone fiveSeconds)) = 3%nat.
Proof.
  assert (Hstart : outcome (startedJob videoGone fiveSeconds)
            = Returned ("sk-test",
                        prepareVideoParameters sampleResolution fiveSeconds,
                        "task-1")) by reflexivity.
  split; [exact Hstart |].
  destruct (failed_download_ends_job
              sampleResolution sampleImageDownload videoGone "a red fox"
              fiveSeconds "req-1" "sk-test" _ "task-1" 3
              (mkResponse 200 ""
                 (Some (bodyOf "SUCCEEDED" (Some "https://cdn.example/v.mp4")
                          None (Some 7))))
              (bodyOf "SUCCEEDED" (Some "https://cdn.example/v.mp4") None (Some 7))
              "https://cdn.example/v.mp4" (mkResponse 404 "" []) Hstart)
    as (Hout & Hvideos & Hpolls & _);
    try reflexivity; try discriminate.
  - unfold POLL_MAX_ATTEMPTS. lia.
  - intros a Ha. unfold pendingAt, pollTaskOnce, awaitFetch.
    cbn [poll_answer videoGone providerWith].
    destruct (Z.ltb_spec a 3); [reflexivity | lia].
  - repeat split; assumption.
Defined.

(** X8: when the poll that finds the task succeeded is followed by a video
    download answered ok, the job returns: the bytes downloaded, as
    "video/mp4" of the model "wan", with the requested duration after
    clamping, and with the usage taken from the duration the poll
    reported.  The run is the start of the job, the pending attempts, the
    attempt that succeeded and the download, and nothing after. *)
Theorem job_returns_the_downloaded_video
    calc dl net prompt p rid apiKey vp taskId (k : Z) r data u v :
  outcome (startJob calc dl net prompt p rid) = Returned (apiKey, vp, taskId) ->
  1 <= k <= POLL_MAX_ATTEMPTS ->
  (forall a, 1 <= a < k -> pendingAt net (pollUrlOf taskId) apiKey rid a) ->
  poll_answer net (pollUrlOf taskId) k = Responds r ->
  ok r = true ->
  resp_body r = Some data ->
  statusOf data = Some "SUCCEEDED" ->
  videoUrlOf data = Some u ->
  u <> "" ->
  video_answer net u = Responds v ->
  ok v = true ->
  let requested := vp_durationSeconds (prepareVideoParameters calc p) in
  let seconds := Js.num_or (video_duration data) requested in
  callWanAPI calc dl net prompt p rid
  = ((trace (startJob calc dl net prompt p rid)
        ++ pendingEvents (pollUrlOf taskId) rid (Z.to_nat (k - 1)) 1
        ++ attemptEvents (pollUrlOf taskId) rid k
        ++ downloadEvents u rid)%list,
     Returned
       {| buffer := resp_body v;
          mimeType := "video/mp4";
          durationSeconds := requested;
          actualModel := "wan";
          usage :=
            {| completionVideoSeconds := seconds;
               completionAudioSeconds :=
                 match audio p with
                 | Some false => 0
                 | _ => seconds
                 end |} |}).
Proof.
  intros Hstart Hk Hpending Ha Hok Hbody Hstatus Hurl Hne Hv Hvok.
  cbv zeta.
  rewrite (job_completes_at_poll _ _ _ _ _ _ _ _ _ k u _ Hstart Hk Hpending
             (pollTaskOnce_succeeded _ _ _ _ _ _ _ _ Ha Hok Hbody Hstatus Hurl Hne)).
  rewrite (downloadVideo_ok _ _ _ _ Hv Hvok). cbn [trace outcome fst snd].
  destruct (startJob_created_inv _ _ _ _ _ _ _ _ _ Hstart) as (_ & -> & _).
  unfold createVideoResult. rewrite num_or_nested.
  change (vp_generateAudio (prepareVideoParameters calc p))
    with (match audio p with Some false => false | _ => true end).
  destruct (audio p) as [[|] |]; reflexivity.
Qed.

Lemma job_returns_the_downloaded_video_witness :
  outcome (startedJob sevenSeconds fiveSeconds)
    = Returned ("sk-test", prepareVideoParameters sampleResolution fiveSeconds,
                "task-1")
  /\ outcome (job sevenSeconds fiveSeconds)
     = Returned
         {| buffer := sampleBytes;
            mimeType := "video/mp4";
            durationSeconds := 5;
            actualModel := "wan";
            usage := {| completionVideoSeconds := 7;
                        completionAudioSeconds := 7 |} |}.
Proof.
  assert (Hstart : outcome (startedJob sevenSeconds fiveSeconds)
            = Returned ("sk-test",
                        prepareVideoParameters sampleResolution fiveSeconds,
                        "task-1")) by reflexivity.
  split; [exact Hstart |].
  unfold job.
  rewrite (job_returns_the_downloaded_video
             sampleResolution sampleImageDownload sevenSeconds "a red fox"
             fiveSeconds "req-1" "sk-test" _ "task-1" 3
             (mkResponse 200 ""
                (Some (bodyOf "SUCCEEDED" (Some "https://cdn.example/v.mp4")
                         None (Some 7))))
             (bodyOf "SUCCEEDED" (Some "https://cdn.example/v.mp4") None (Some 7))
             "https://cdn.example/v.mp4" (mkResponse 200 "" sampleBytes) Hstart);
    try reflexivity; try discriminate.
  - unfold POLL_MAX_ATTEMPTS. lia.
  - intros a Ha. apply running_is_pending.
    destruct (Z.ltb_spec a 3); [reflexivity | lia].
Defined.

(** ** What every run keeps *)

Lemma fold_pauses (ms : Z) (l : list Z) :
  Forall (eq ms) l -> fold_right Z.add 0 l = Z.of_nat (List.length l) * ms.
Proof.
  induction 1 as [| x l Hx _ IH]; [reflexivity |].
  subst x. cbn [fold_right List.length]. rewrite IH. lia.
Qed.

(** What is observed of [finishJob]: one submission, no image, and the
    polls, pauses and video requests of the loop. *)
Lemma finishJob_observed net apiKey rid vp body :
  let t := trace (finishJob net apiKey rid vp body) in
  imagesRequested t = []
  /\ (List.length (polled t) <= Z.to_nat POLL_MAX_ATTEMPTS)%nat
  /\ Forall (eq POLL_DELAY_MS) (pauses t)
  /\ (List.length (pauses t) <= List.length (polled t))%nat
  /\ (List.length (videosRequested t) <= 1)%nat.
Proof.
  cbv zeta. rewrite finishJob_unfold.
  destruct (outcome (createDashScopeTask net apiKey body rid)) as [taskId | e];
    cbn [trace fst]; [| cbn; repeat split; auto; lia].
  unfold pollWanTask.
  rewrite imagesRequested_app, polled_app, pauses_app, videosRequested_app.
  cbn [imagesRequested polled pauses videosRequested submittingEvent
       submittedEvent app].
  rewrite (proj2 (submitted_pollLoop _ _ _ _ _ _)).
  destruct (pollLoop_observed net (DASHSCOPE_API_BASE ++ "/tasks/" ++ taskId)
              apiKey rid (Z.to_nat POLL_MAX_ATTEMPTS) 1)
    as (_ & Hn & Hs & Hle & Hv).
  repeat split; assumption.
Qed.

(** X12: whatever the provider answers, a run of the job sends at most one
    image download, one submission, [POLL_MAX_ATTEMPTS] = 60 polls and one
    video download; every pause is [POLL_DELAY_MS] = 5000 ms, there are no
    more pauses than polls, and the pauses add up to at most 300000 ms. *)
Theorem job_is_bounded calc dl net prompt p rid :
  let t := trace (callWanAPI calc dl net prompt p rid) in
  (List.length (imagesRequested t) <= 1)%nat
  /\ (List.length (submitted t) <= 1)%nat
  /\ (List.length (polled t) <= 60)%nat
  /\ (List.length (videosRequested t) <= 1)%nat
  /\ Forall (eq 5000) (pauses t)
  /\ (List.length (pauses t) <= List.length (polled t))%nat
  /\ 0 <= pausedFor t <= 300000.
Proof.
  cbv zeta.
  destruct (job_cases calc dl net prompt p rid)
    as [(_ & ->) | [(u & e & _ & _ & _ & _ & ->)
        | (apiKey & imageEvents & dataUri & _ & _ & Hstep & ->)]];
    cbn [trace fst]; [cbn; repeat split; auto; lia .. |].
  destruct (finishJob_observed net apiKey rid (prepareVideoParameters calc p)
              (requestBodyOf prompt dataUri (prepareVideoParameters calc p)))
    as (Hi & Hn & Hs & Hle & Hv).
  unfold pausedFor.
  cbn [imagesRequested submitted polled videosRequested pauses startedEvent].
  rewrite imagesRequested_app, submitted_app, polled_app, videosRequested_app,
    pauses_app, Hi, submitted_finishJob.
  assert (Hquiet : submitted imageEvents = [] /\ polled imageEvents = []
                   /\ videosRequested imageEvents = [] /\ pauses imageEvents = []
                   /\ (List.length (imagesRequested imageEvents) <= 1)%nat)
    by (destruct Hstep; cbn; repeat split; lia).
  destruct Hquiet as (-> & -> & -> & -> & Himg).
  cbn [app]. rewrite app_nil_r, (fold_pauses POLL_DELAY_MS _ Hs).
  unfold POLL_MAX_ATTEMPTS, POLL_DELAY_MS in *.
  repeat split; try assumption; cbn [List.length]; lia.
Qed.

Lemma pendingEvents_snoc url rid :
  forall (n : nat) (a : Z),
    pendingEvents url rid (S n) a
    = (pendingEvents url rid n a
         ++ attemptEvents url rid (a + Z.of_nat n) ++ [Sleep POLL_DELAY_MS])%list.
Proof.
  induction n as [| n IH]; intros a.
  - cbn [pendingEvents app]. rewrite Z.add_0_r, app_nil_r. reflexivity.
  - change (pendingEvents url rid (S (S n)) a)
      with ((attemptEvents url rid a ++ [Sleep POLL_DELAY_MS])
              ++ pendingEvents url rid (S n) (a + 1))%list.
    rewrite IH. cbn [pendingEvents].
    replace (a + 1 + Z.of_nat n) with (a + Z.of_nat (S n)) by lia.
    rewrite <- !app_assoc. reflexivity.
Qed.

(** X13: a job that times out has paused 60 times, 300000 ms in all, the
    five minutes of its error message; the last thing it did before
    throwing was to pause after the 60th poll. *)
Theorem timed_out_job_paused_five_minutes
    calc dl net prompt p rid apiKey vp taskId :
  outcome (startJob calc dl net prompt p rid) = Returned (apiKey, vp, taskId) ->
  (forall attempt, 1 <= attempt <= POLL_MAX_ATTEMPTS ->
     pendingAt net (pollUrlOf taskId) apiKey rid attempt) ->
  pauses (trace (callWanAPI calc dl net prompt p rid)) = repeat 5000 60
  /\ pausedFor (trace (callWanAPI calc dl net prompt p rid)) = 5 * 60 * 1000
  /\ exists before,
       trace (callWanAPI calc dl net prompt p rid)
       = (before ++ [PollGet (pollUrlOf taskId); Sleep 5000])%list
       /\ polls before = 59%nat.
Proof.
  intros Hstart Hpending.
  rewrite (job_after_start _ _ _ _ _ _ _ _ _ Hstart).
  unfold pollWanTask. fold (pollUrlOf taskId).
  rewrite pollLoop_all_pending
    by (intros i Hi; apply Hpending; unfold POLL_MAX_ATTEMPTS in *; lia).
  cbn [trace fst].
  destruct (startJob_created_quiet _ _ _ _ _ _ _ _ _ Hstart) as (_ & Hs & _).
  destruct (startJob_created_observed _ _ _ _ _ _ _ _ _ Hstart) as [_ Hn].
  assert (Hpauses :
    pauses (trace (startJob calc dl net prompt p rid)
              ++ pendingEvents (pollUrlOf taskId) rid (Z.to_nat POLL_MAX_ATTEMPTS) 1)
    = repeat 5000 60).
  { rewrite pauses_app, Hs.
    apply (proj1 (proj2 (polled_pendingEvents _ _ _ _))). }
  split; [exact Hpauses |]. split.
  - unfold pausedFor. rewrite Hpauses, pausedFor_repeat. reflexivity.
  - change (Z.to_nat POLL_MAX_ATTEMPTS) with 60%nat.
    rewrite pendingEvents_snoc.
    exists (trace (startJob calc dl net prompt p rid)
              ++ pendingEvents (pollUrlOf taskId) rid 59 1
              ++ [UpdateBar rid (progressPercent 60) "Processing" (pollMessage 60)])%list.
    split.
    + cbn [attemptEvents Z.of_nat Z.add app]. rewrite <- !app_assoc. reflexivity.
    + rewrite !polls_app, Hn, polls_pendingEvents. reflexivity.
Qed.

Lemma timed_out_job_paused_five_minutes_witness :
  outcome (startedJob alwaysRunning fiveSeconds)
    = Returned ("sk-test", prepareVideoParameters sampleResolution fiveSeconds,
                "task-1")
  /\ pausedFor (trace (job alwaysRunning fiveSeconds)) = 300000.
Proof.
  assert (Hstart : outcome (startedJob alwaysRunning fiveSeconds)
            = Returned ("sk-test",
                        prepareVideoParameters sampleResolution fiveSeconds,
                        "task-1")) by reflexivity.
  split; [exact Hstart |].
  apply (timed_out_job_paused_five_minutes
           sampleResolution sampleImageDownload alwaysRunning "a red fox"
           fiveSeconds "req-1" "sk-test" _ "task-1" Hstart).
  intros attempt _. now apply running_is_pending.
Defined.

(** The percentages reported by the loop, however it ends: sorted, and
    between the one of its first attempt and 95. *)
Lemma pollLoop_percents net url key rid :
  forall (n : nat) (a : Z),
    let shown := percents (trace (pollLoop net url key rid n a)) in
    StronglySorted Z.le shown
    /\ Forall (fun pct => progressPercent a <= pct <= 95) shown.
Proof.
  induction n as [| n IH]; intros a; cbv zeta; [split; constructor |].
  pose proof (progressPercent_mono a (a + 1)) as Hmono.
  assert (Hcap : progressPercent a <= 90) by (unfold progressPercent; lia).
  rewrite pollLoop_step.
  destruct (outcome (pollTaskOnce net url key a rid)) as [[| u d | err] | e];
    cbn [trace fst]; rewrite ?percents_app; cbn [percents attemptEvents app].
  - destruct (IH (a + 1)) as [Hsorted Hbounds].
    assert (Hrest : Forall (fun pct => progressPercent a <= pct <= 95)
                      (percents (trace (pollLoop net url key rid n (a + 1))))).
    { eapply Forall_impl; [| exact Hbounds]. cbv beta. lia. }
    split; constructor; try assumption; try lia.
    eapply Forall_impl; [| exact Hrest]. cbv beta. lia.
  - destruct (downloadVideo_cases net u rid) as [(r & _ & _ & ->) | (e & ->)];
      cbn [trace fst percents downloadEvents];
      split; repeat constructor; lia.
  - split; repeat constructor; lia.
  - split; repeat constructor; lia.
Qed.

(** X14: in every run of the job, also one that throws, the percentages
    given to the progress bar never decrease and lie between 35 and 95. *)
Theorem progress_never_decreases_in_any_run calc dl net prompt p rid :
  Sorted Z.le (percents (trace (callWanAPI calc dl net prompt p rid)))
  /\ Forall (fun pct => 35 <= pct <= 95)
       (percents (trace (callWanAPI calc dl net prompt p rid))).
Proof.
  assert (Hall :
    StronglySorted Z.le (percents (trace (callWanAPI calc dl net prompt p rid)))
    /\ Forall (fun pct => 35 <= pct <= 95)
         (percents (trace (callWanAPI calc dl net prompt p rid)))).
  { destruct (job_cases calc dl net prompt p rid)
      as [(_ & ->) | [(u & e & _ & _ & _ & _ & ->)
          | (apiKey & imageEvents & dataUri & _ & _ & Hstep & ->)]];
      cbn [trace fst percents startedEvent];
      [split; constructor | split; repeat constructor; lia |].
    rewrite percents_app, (proj1 (ImageStep_percents _ _ _ _ Hstep)).
    cbn [app]. rewrite finishJob_unfold.
    destruct (outcome (createDashScopeTask net apiKey _ rid)) as [taskId | e];
      cbn [trace fst]; [| cbn; split; repeat constructor; lia].
    rewrite percents_app. cbn [percents submittingEvent submittedEvent app].
    unfold pollWanTask.
    destruct (pollLoop_percents net (DASHSCOPE_API_BASE ++ "/tasks/" ++ taskId)
                apiKey rid (Z.to_nat POLL_MAX_ATTEMPTS) 1)
      as [Hsorted Hbounds].
    pose proof (progressPercent_bounds 1) as H1.
    assert (Hlow : Forall (fun pct => 50 <= pct <= 95)
                     (percents (trace (pollLoop net
                        (DASHSCOPE_API_BASE ++ "/tasks/" ++ taskId) apiKey rid
                        (Z.to_nat POLL_MAX_ATTEMPTS) 1)))).
    { eapply Forall_impl; [| exact Hbounds]. cbv beta. lia. }
    split.
    - apply (StronglySorted_app_bound 50 [35; 45; 50]); try assumption.
      + repeat constructor; lia.
      + repeat constructor; lia.
      + eapply Forall_impl; [| exact Hlow]. cbv beta. lia.
    - repeat constructor; try lia.
      eapply Forall_impl; [| exact Hlow]. cbv beta. lia. }
  destruct Hall as [Hsorted Hbounds].
  split; [apply StronglySorted_Sorted; exact Hsorted | exact Hbounds].
Qed.

(** ** What is sent to the provider *)

(** X15: every submission of the job goes to the video-synthesis URL and
    carries the prompt of the caller, [prompt_extend] set, audio unless the
    caller set it to false, a duration within [2, 15], and the resolution
    that [calculateVideoResolution] gives for the sizes of the caller with
    the default "720P".  It names the text-to-video model and has no image
    when the request has no usable first image; else it names the
    image-to-video model and its image is the data URI of the download of
    that first image. *)
Theorem submitted_request_is_built_from_the_request
    calc dl net prompt p rid url body :
  In (SubmitPost url body) (trace (callWanAPI calc dl net prompt p rid)) ->
  url = "https://dashscope-intl.aliyuncs.com/api/v1/services/aigc/video-generation/video-synthesis"
  /\ input_prompt body = prompt
  /\ param_prompt_extend body = true
  /\ param_audio body = match audio p with Some false => false | _ => true end
  /\ MIN_DURATION_SECONDS <= param_duration body <= MAX_DURATION_SECONDS
  /\ param_resolution body
     = rc_resolution (calc {| rq_width := width p;
                              rq_height := height p;
                              rq_aspectRatio := aspectRatio p;
                              rq_defaultResolution := "720P" |})
  /\ ((model body = "wan2.6-t2v"
       /\ input_img_url body = None
       /\ Js.truthy (extractFirstImage (image p)) = false)
      \/ (model body = "wan2.6-i2v-flash"
          /\ exists u base64 mime,
               extractFirstImage (image p) = Some u
               /\ dl u = Returned (base64, mime)
               /\ input_img_url body
                  = Some ("data:" ++ mime ++ ";base64," ++ base64))).
Proof.
  intros Hin.
  destruct (job_of_submission _ _ _ _ _ _ _ _ Hin)
    as (apiKey & imageEvents & dataUri & _ & _ & Hstep & -> & -> & _).
  cbn [requestBodyOf input_prompt param_prompt_extend param_audio
       param_duration param_resolution model input_img_url].
  repeat split.
  - unfold prepareVideoParameters, MIN_DURATION_SECONDS, MAX_DURATION_SECONDS.
    cbn [vp_durationSeconds]. lia.
  - unfold prepareVideoParameters, MIN_DURATION_SECONDS, MAX_DURATION_SECONDS.
    cbn [vp_durationSeconds]. lia.
  - destruct Hstep as [Hno | u base64 mime Hraw Hu Hdl].
    + left. repeat split. exact Hno.
    + right. split; [reflexivity |]. exists u, base64, mime.
      repeat split; assumption.
Qed.

Lemma submitted_request_is_built_from_the_request_witness :
  In (SubmitPost submitUrl
        (requestBodyOf "a red fox" (Some "data:image/png;base64,aGVsbG8=")
           (prepareVideoParameters sampleResolution twoImages)))
     (trace (job sevenSeconds twoImages))
  /\ input_prompt
       (requestBodyOf "a red fox" (Some "data:image/png;base64,aGVsbG8=")
          (prepareVideoParameters sampleResolution twoImages))
     = "a red fox"
  /\ param_prompt_extend
       (requestBodyOf "a red fox" (Some "data:image/png;base64,aGVsbG8=")
          (prepareVideoParameters sampleResolution twoImages))
     = true.
Proof.
  assert (Hin :
    In (SubmitPost submitUrl
          (requestBodyOf "a red fox" (Some "data:image/png;base64,aGVsbG8=")
             (prepareVideoParameters sampleResolution twoImages)))
       (trace (job sevenSeconds twoImages)))
    by (do 3 right; left; reflexivity).
  split; [exact Hin |].
  destruct (submitted_request_is_built_from_the_request
              sampleResolution sampleImageDownload sevenSeconds "a red fox"
              twoImages "req-1" _ _ Hin)
    as (_ & Hprompt & Hextend & _).
  split; [exact Hprompt | exact Hextend].
Defined.

(** X16: a request without image, with an empty string as image, with an
    empty list, or with a list whose first entry is the empty string (also
    when later entries are URLs) is a text-to-video request: the job
    downloads no image, and what it submits names the text-to-video model
    and has no image. *)
Theorem empty_first_image_means_no_image calc dl net prompt p rid :
  image p = NoImage
  \/ image p = OneImage ""
  \/ image p = ManyImages []
  \/ (exists others, image p = ManyImages ("" :: others)) ->
  imagesRequested (trace (callWanAPI calc dl net prompt p rid)) = []
  /\ forall url body,
       In (SubmitPost url body) (trace (callWanAPI calc dl net prompt p rid)) ->
       model body = WAN_T2V_MODEL /\ input_img_url body = None.
Proof.
  intros Himage.
  assert (Hraw : Js.truthy (extractFirstImage (image p)) = false).
  { destruct Himage as [-> | [-> | [-> | (others & ->)]]]; reflexivity. }
  split.
  - destruct (job_cases calc dl net prompt p rid)
      as [(_ & ->) | [(u & e & _ & Hsome & Hu & _ & _)
          | (apiKey & imageEvents & dataUri & _ & _ & Hstep & ->)]];
      [reflexivity | rewrite Hsome in Hraw; congruence |].
    cbn [trace fst imagesRequested startedEvent]. rewrite imagesRequested_app.
    rewrite (proj1 (finishJob_observed _ _ _ _ _)).
    destruct Hstep; [reflexivity | congruence].
  - intros url body Hin.
    destruct (job_of_submission _ _ _ _ _ _ _ _ Hin)
      as (apiKey & imageEvents & dataUri & _ & _ & Hstep & _ & -> & _).
    destruct Hstep; [split; reflexivity | congruence].
Qed.

Lemma empty_first_image_means_no_image_witness :
  (image emptyFirstImage = NoImage
   \/ image emptyFirstImage = OneImage ""
   \/ image emptyFirstImage = ManyImages []
   \/ (exists others, image emptyFirstImage = ManyImages ("" :: others)))
  /\ imagesRequested (trace (job sevenSeconds emptyFirstImage)) = []
  /\ submitted (trace (job sevenSeconds emptyFirstImage))
     = [(submitUrl, textRequest emptyFirstImage)].
Proof.
  assert (Himage :
    image emptyFirstImage = NoImage
    \/ image emptyFirstImage = OneImage ""
    \/ image emptyFirstImage = ManyImages []
    \/ (exists others, image emptyFirstImage = ManyImages ("" :: others)))
    by (do 3 right; eexists; reflexivity).
  split; [exact Himage |].
  destruct (empty_first_image_means_no_image
              sampleResolution sampleImageDownload sevenSeconds "a red fox"
              emptyFirstImage "req-1" Himage) as [Hnone _].
  split; [exact Hnone | reflexivity].
Defined.

(** X17: the copy of the request that [logRequestSafely] prints for a
    submission of the job never holds the image: its [img_url] is the
    marker "[base64]" when the request has a usable first image and is
    absent otherwise, no [img_url] it prints starts with "data:", and its
    other fields are those of the request submitted. *)
Theorem logged_request_hides_the_image calc dl net prompt p rid url body :
  In (SubmitPost url body) (trace (callWanAPI calc dl net prompt p rid)) ->
  input_img_url (safeRequestOf body)
    = (if Js.truthy (extractFirstImage (image p)) then Some "[base64]" else None)
  /\ (forall u, input_img_url (safeRequestOf body) = Some u ->
               Js.startsWith u "data:" = false)
  /\ model (safeRequestOf body) = model body
  /\ input_prompt (safeRequestOf body) = input_prompt body
  /\ param_resolution (safeRequestOf body) = param_resolution body
  /\ param_duration (safeRequestOf body) = param_duration body
  /\ param_prompt_extend (safeRequestOf body) = param_prompt_extend body
  /\ param_audio (safeRequestOf body) = param_audio body.
Proof.
  intros Hin.
  destruct (job_of_submission _ _ _ _ _ _ _ _ Hin)
    as (apiKey & imageEvents & dataUri & _ & _ & Hstep & _ & -> & _).
  assert (Hlogged :
    input_img_url (safeRequestOf
      (requestBodyOf prompt dataUri (prepareVideoParameters calc p)))
    = (if Js.truthy (extractFirstImage (image p)) then Some "[base64]" else None)).
  { destruct Hstep as [Hno | u base64 mime Hraw Hu Hdl].
    - rewrite Hno. reflexivity.
    - rewrite Hu. unfold dataUriOf. destruct mime; reflexivity. }
  split; [exact Hlogged |]. split; [| repeat split].
  intros u Hu. rewrite Hlogged in Hu.
  destruct (Js.truthy (extractFirstImage (image p))); [| discriminate].
  injection Hu as <-. reflexivity.
Qed.

Lemma logged_request_hides_the_image_witness :
  In (SubmitPost submitUrl
        (requestBodyOf "a red fox" (Some "data:image/png;base64,aGVsbG8=")
           (prepareVideoParameters sampleResolution twoImages)))
     (trace (job sevenSeconds twoImages))
  /\ input_img_url
       (safeRequestOf
          (requestBodyOf "a red fox" (Some "data:image/png;base64,aGVsbG8=")
             (prepareVideoParameters sampleResolution twoImages)))
     = Some "[base64]".
Proof.
  assert (Hin :
    In (SubmitPost submitUrl
          (requestBodyOf "a red fox" (Some "data:image/png;base64,aGVsbG8=")
             (prepareVideoParameters sampleResolution twoImages)))
       (trace (job sevenSeconds twoImages)))
    by (do 3 right; left; reflexivity).
  split; [exact Hin |].
  apply (logged_request_hides_the_image
           sampleResolution sampleImageDownload sevenSeconds "a red fox"
           twoImages "req-1" _ _ Hin).
Defined.

(** X19: whatever image URL [buildDashScopeRequest] is given, a request it
    returns is consistent: it names the image-to-video model exactly when it
    carries an image, the image it carries is the URL given, unchanged, and
    that URL starts with "http://", "https://" or "data:": for any other
    non-empty URL no request is returned.  An absent or empty URL gives a
    text-to-video request. *)
Theorem built_request_is_consistent prompt (imageUrl : option string) vp body :
  outcome (buildDashScopeRequest prompt imageUrl vp) = Returned body ->
  (model body = WAN_I2V_MODEL <-> input_img_url body <> None)
  /\ (model body = WAN_T2V_MODEL <-> input_img_url body = None)
  /\ (input_img_url body = None <-> Js.truthy imageUrl = false)
  /\ (forall u, input_img_url body = Some u ->
       imageUrl = Some u
       /\ (Js.startsWith u "http://" || Js.startsWith u "https://"
           || Js.startsWith u "data:") = true)
  /\ input_prompt body = prompt
  /\ param_duration body = vp_durationSeconds vp.
Proof.
  unfold buildDashScopeRequest, prepareImageUrl.
  destruct imageUrl as [u |].
  - destruct (Js.truthy (Some u)) eqn:Hu.
    + destruct (Js.startsWith u "http://" || Js.startsWith u "https://"
                || Js.startsWith u "data:") eqn:Hprefix;
        cbn [bind ret throw outcome snd]; [| discriminate].
      intros [= <-]. cbn [model input_img_url input_prompt param_duration].
      repeat split; try discriminate; try congruence.
    + cbn [bind ret outcome snd]. intros [= <-].
      cbn [model input_img_url input_prompt param_duration].
      repeat split; try discriminate; try congruence.
  - cbn [bind ret outcome snd Js.truthy]. intros [= <-].
    cbn [model input_img_url input_prompt param_duration].
    repeat split; try discriminate; try congruence.
Qed.

Lemma built_request_is_consistent_witness :
  outcome (buildDashScopeRequest "a red fox" (Some "https://img.example/a.png")
             (prepareVideoParameters sampleResolution fiveSeconds))
    = Returned
        {| model := "wan2.6-i2v-flash";
           input_prompt := "a red fox";
           input_img_url := Some "https://img.example/a.png";
           param_resolution := "720P";
           param_duration := 5;
           param_prompt_extend := true;
           param_audio := true |}
  /\ outcome (buildDashScopeRequest "a red fox" (Some "ftp://files.example/cat.png")
                (prepareVideoParameters sampleResolution fiveSeconds))
     = Thrown invalidImageUrl
  /\ param_duration
       {| model := "wan2.6-i2v-flash";
          input_prompt := "a red fox";
          input_img_url := Some "https://img.example/a.png";
          param_resolution := "720P";
          param_duration := 5;
          param_prompt_extend := true;
          param_audio := true |}
     = vp_durationSeconds (prepareVideoParameters sampleResolution fiveSeconds).
Proof.
  assert (Hbuilt :
    outcome (buildDashScopeRequest "a red fox" (Some "https://img.example/a.png")
               (prepareVideoParameters sampleResolution fiveSeconds))
    = Returned
        {| model := "wan2.6-i2v-flash";
           input_prompt := "a red fox";
           input_img_url := Some "https://img.example/a.png";
           param_resolution := "720P";
           param_duration := 5;
           param_prompt_extend := true;
           param_audio := true |}) by reflexivity.
  split; [exact Hbuilt |]. split; [reflexivity |].
  destruct (built_request_is_consistent _ _ _ _ Hbuilt)
    as (_ & _ & _ & _ & _ & Hduration).
  exact Hduration.
Defined.

(** ** Requests that the network rejects *)

(** X20: when the network rejects the submission, the job ends with that
    rejection: it is not caught and the submission is not sent again;
    nothing is polled and the progress stays at 45. *)
Theorem submission_network_error_ends_job
    calc dl net prompt p rid url body reason :
  In (SubmitPost url body) (trace (callWanAPI calc dl net prompt p rid)) ->
  submit_answer net body = Rejects reason ->
  outcome (callWanAPI calc dl net prompt p rid) = Thrown (FetchRejected reason)
  /\ submitted (trace (callWanAPI calc dl net prompt p rid)) = [(url, body)]
  /\ polled (trace (callWanAPI calc dl net prompt p rid)) = []
  /\ percents (trace (callWanAPI calc dl net prompt p rid)) = [35; 45].
Proof.
  intros Hin Ha.
  destruct (job_ends_at_submission _ _ _ _ _ _ _ _ (FetchRejected reason) Hin)
    as (Hout & Hpolled & Hshown).
  { intros apiKey. rewrite (createDashScopeTask_rejected _ _ _ _ _ Ha).
    reflexivity. }
  repeat split; try assumption.
  destruct (job_of_submission _ _ _ _ _ _ _ _ Hin)
    as (apiKey & imageEvents & dataUri & _ & _ & Hstep & -> & -> & ->).
  cbn [trace fst submitted startedEvent].
  rewrite submitted_app, (submitted_ImageStep _ _ _ _ Hstep), submitted_finishJob.
  reflexivity.
Qed.

Lemma submission_network_error_ends_job_witness :
  In (SubmitPost submitUrl (textRequest fiveSeconds))
     (trace (job unreachable fiveSeconds))
  /\ outcome (job unreachable fiveSeconds) = Thrown (FetchRejected "ENOTFOUND")
  /\ submitted (trace (job unreachable fiveSeconds))
     = [(submitUrl, textRequest fiveSeconds)].
Proof.
  assert (Hin : In (SubmitPost submitUrl (textRequest fiveSeconds))
                   (trace (job unreachable fiveSeconds)))
    by (do 2 right; left; reflexivity).
  split; [exact Hin |].
  destruct (submission_network_error_ends_job
              sampleResolution sampleImageDownload unreachable "a red fox"
              fiveSeconds "req-1" submitUrl (textRequest fiveSeconds)
              "ENOTFOUND" Hin eq_refl)
    as (Hout & Hsent & _).
  split; [exact Hout | exact Hsent].
Defined.

(** A witness of [poll_network_error_ends_job]: the connection drops on the
    first poll. *)
Lemma poll_network_error_ends_job_witness :
  outcome (startedJob droppedConnection fiveSeconds)
    = Returned ("sk-test", prepareVideoParameters sampleResolution fiveSeconds,
                "task-1")
  /\ outcome (job droppedConnection fiveSeconds)
     = Thrown (FetchRejected "ECONNRESET")
  /\ polls (trace (job droppedConnection fiveSeconds)) = 1%nat.
Proof.
  assert (Hstart : outcome (startedJob droppedConnection fiveSeconds)
            = Returned ("sk-test",
                        prepareVideoParameters sampleResolution fiveSeconds,
                        "task-1")) by reflexivity.
  split; [exact Hstart |].
  apply (poll_network_error_ends_job
           sampleResolution sampleImageDownload droppedConnection "a red fox"
           fiveSeconds "req-1" "sk-test" _ "task-1" 1 "ECONNRESET" Hstart).
  - unfold POLL_MAX_ATTEMPTS. lia.
  - intros a Ha. lia.
  - reflexivity.
Defined.

(** ** The check of the image URI *)






(** A request without a usable first image runs the same with any
    downloader: [downloadImageAsBase64] is not called. *)
Lemma job_without_first_image_ignores_the_downloader
    calc dl dl' net prompt p rid :
  Js.truthy (extractFirstImage (image p)) = false ->
  callWanAPI calc dl net prompt p rid = callWanAPI calc dl' net prompt p rid.
Proof.
  intros Hraw. unfold callWanAPI, callWanAlibabaAPI.
  destruct (extractFirstImage (image p)) as [u |]; [| reflexivity].
  rewrite Hraw. reflexivity.
Qed.



